(** * tmdbscraper/api_utils.py: service client and request facade

    A shallow embedding of [python/lib/tmdbscraper/api_utils.py] and the
    properties of its two configuration setters, of the socket client
    [load_info_from_service] and of the facade [load_info].

    Conventions of the embedding.
    - A Python [str] and a Python [bytes] are both a [string] of bytes (the
      UTF-8 text), so [.encode('utf-8')] is the identity.
    - Text is ASCII wherever the code looks at its characters ([int] of
      the port property, [lower] of the response type).
    - A Python [dict] with string keys is a [gmap string pyval].
    - What lives outside the file (the Kodi modules [xbmc] and [xbmcgui],
      [socket], [json], [urlencode], [requests]) is a [world]: one field per
      collaborator, saying what that collaborator answers.
    - A Python function is a computation [M S A]: it takes the mutable
      state [S] and gives back either the value it returns or the exception
      it raises, the state it leaves, and the calls it made to the
      collaborators that perform I/O, in order. *)

From Stdlib Require Import PrimFloat Ascii String ZArith.
From stdpp Require Import gmap strings list fin_maps.

Set Warnings "-register-all".

Local Open Scope string_scope.
Local Open Scope Z_scope.

(** ** Python values *)

(** The values [json.loads] can produce, which are also the values the
    callers pass for [params], [headers], [batch_payload] and [default]. *)
Inductive pyval : Type :=
| PNone
| PBool (b : bool)
| PInt (n : Z)
| PFloat (x : float)
| PStr (s : string)
| PList (l : list pyval)
| PDict (d : gmap string pyval).

(** [bool(v)]: the truth value Python's [if v], [not v] and [v or w] test. *)
Definition truthy (v : pyval) : bool :=
  match v with
  | PNone => false
  | PBool b => b
  | PInt n => negb (n =? 0)
  | PFloat x => negb (PrimFloat.eqb x 0%float)
  | PStr s => negb (String.eqb s "")
  | PList l => negb (Nat.eqb (length l) 0)
  | PDict d => negb (bool_decide (d = ∅))
  end.

(** [a or b] *)
Definition py_or (a b : pyval) : pyval := if truthy a then a else b.

(** [v is None] *)
Definition is_None (v : pyval) : bool :=
  match v with PNone => true | _ => false end.

(** [type(v).__name__], as the interpreter prints it in its messages. *)
Definition type_name (v : pyval) : string :=
  match v with
  | PNone => "NoneType"
  | PBool _ => "bool"
  | PInt _ => "int"
  | PFloat _ => "float"
  | PStr _ => "str"
  | PList _ => "list"
  | PDict _ => "dict"
  end.

(** ** Exceptions and outcomes *)

(** The exceptions of the model are all instances of subclasses of
    [Exception]: those the interpreter raises for the operations below, and
    [LibraryError cls msg] for whatever a collaborator raises
    ([ConnectionRefusedError], [socket.timeout], [json.JSONDecodeError],
    [requests.HTTPError], ...). *)
Inductive exn : Type :=
| UnboundLocalError (var : string)
| ValueError (msg : string)
| TypeError (msg : string)
| AttributeError (msg : string)
| KeyError (key : string)
| LibraryError (cls msg : string).

(** [str(e)], which is what ['{}'.format(e)] inserts. *)
Definition exn_str (e : exn) : string :=
  match e with
  | UnboundLocalError var =>
      "cannot access local variable '" ++ var ++
      "' where it is not associated with a value"
  | ValueError msg | TypeError msg | AttributeError msg => msg
  | KeyError key => "'" ++ key ++ "'"
  | LibraryError _ msg => msg
  end.

(** Every [except] clause of the file is [except Exception as e]. *)
Definition is_Exception (e : exn) : bool := true.

Inductive outcome (A : Type) : Type :=
| Returns (a : A)
| Raises (e : exn).
Arguments Returns {A} a.
Arguments Raises {A} e.

(** ** Builtins used by the file *)

Module Builtins.

(** Whitespace that [int] strips: tab, LF, VT, FF, CR and the space. *)
Definition is_space (c : ascii) : bool :=
  let n := Z.of_nat (nat_of_ascii c) in
  ((9 <=? n) && (n <=? 13)) || (n =? 32).

Fixpoint lstrip (s : string) : string :=
  match s with
  | String c s' => if is_space c then lstrip s' else s
  | EmptyString => EmptyString
  end.

Definition strip (s : string) : string :=
  String.rev (lstrip (String.rev (lstrip s))).

Definition digit_val (c : ascii) : option Z :=
  let n := Z.of_nat (nat_of_ascii c) in
  if (48 <=? n) && (n <=? 57) then Some (n - 48) else None.

(** Decimal digits, where single underscores may separate digits.
    [after_digit] says that the previous character was a digit. *)
Fixpoint digits (acc : Z) (after_digit : bool) (s : string) : option Z :=
  match s with
  | EmptyString => if after_digit then Some acc else None
  | String c s' =>
      if Ascii.eqb c "_"%char then
        if after_digit then digits acc false s' else None
      else
        match digit_val c with
        | Some d => digits (10 * acc + d) true s'
        | None => None
        end
  end.

(** The interpreter's default limit on the digits of a decimal string that
    [int] converts ([sys.get_int_max_str_digits()]). *)
Definition int_max_str_digits : Z := 4300.

(** The digits of [s], underscores not counted. *)
Fixpoint count_digits (s : string) : Z :=
  match s with
  | EmptyString => 0
  | String c s' =>
      if Ascii.eqb c "_"%char then count_digits s' else 1 + count_digits s'
  end.

(** The number after the sign: well-formed digits, no more of them than the
    limit. *)
Definition unsigned_int (s : string) : option Z :=
  if count_digits s <=? int_max_str_digits then digits 0 false s else None.

(** [int(s)] for a string [s] in base 10, on ASCII text: [None] stands for
    the [ValueError] Python raises. *)
Definition py_int (s : string) : option Z :=
  match strip s with
  | String "-"%char s' => Z.opp <$> unsigned_int s'
  | String "+"%char s' => unsigned_int s'
  | s' => unsigned_int s'
  end.

Definition lower_ascii (c : ascii) : ascii :=
  let n := nat_of_ascii c in
  if (Nat.leb 65 n && Nat.leb n 90)%bool then ascii_of_nat (n + 32) else c.

(** [s.lower()].  The letters outside ASCII are left alone; none of them
    lowers to one of [j], [s], [o], [n], so the test against ['json'] is
    the one Python makes. *)
Fixpoint py_lower (s : string) : string :=
  match s with
  | EmptyString => EmptyString
  | String c s' => String (lower_ascii c) (py_lower s')
  end.

Fixpoint is_prefix (p s : string) : bool :=
  match p, s with
  | EmptyString, _ => true
  | String a p', String b s' => Ascii.eqb a b && is_prefix p' s'
  | String _ _, EmptyString => false
  end.

(** [p in s] on strings: [p] occurs in [s]. *)
Fixpoint is_substring (p s : string) : bool :=
  is_prefix p s ||
  match s with
  | EmptyString => false
  | String _ s' => is_substring p s'
  end.

(** The quote character, for messages that show one. *)
Definition dquote : string := String (ascii_of_nat 34) EmptyString.

End Builtins.
Export Builtins.

(** [k in v] for a string [k] *)
Definition py_contains (k : string) (v : pyval) : outcome bool :=
  match v with
  | PDict d => Returns (bool_decide (is_Some (d !! k)))
  | PList l =>
      Returns (existsb (fun x => match x with
                                 | PStr s => String.eqb s k
                                 | _ => false
                                 end) l)
  | PStr s => Returns (is_substring k s)
  | _ => Raises (TypeError ("argument of type '" ++ type_name v ++
                            "' is not iterable"))
  end.

(** [v.get(k, dflt)]: only a dict has the method. *)
Definition py_get (v : pyval) (k : string) (dflt : pyval) : outcome pyval :=
  match v with
  | PDict d => Returns (match d !! k with Some x => x | None => dflt end)
  | _ => Raises (AttributeError ("'" ++ type_name v ++
                                 "' object has no attribute 'get'"))
  end.

(** [v[k]] for a string [k] *)
Definition py_getitem (v : pyval) (k : string) : outcome pyval :=
  match v with
  | PDict d =>
      match d !! k with
      | Some x => Returns x
      | None => Raises (KeyError k)
      end
  | PList _ =>
      Raises (TypeError "list indices must be integers or slices, not str")
  | PStr _ => Raises (TypeError "string indices must be integers, not 'str'")
  | _ => Raises (TypeError ("'" ++ type_name v ++
                            "' object is not subscriptable"))
  end.

(** [json.loads(v)] accepts text only; what the text decodes to is the
    decoder's business (see [world]). *)
Definition py_json_loads (decoder : string → outcome pyval) (v : pyval)
    : outcome pyval :=
  match v with
  | PStr s => decoder s
  | _ => Raises (TypeError ("the JSON object must be str, bytes or bytearray, not "
                            ++ type_name v))
  end.

(** [{'error': x}] *)
Definition error_dict (x : pyval) : pyval := PDict {[ "error" := x ]}.

(** ** The collaborators *)

Inductive loglevel : Type := LOGDEBUG | LOGWARNING | LOGERROR.

(** The calls that reach outside the process, in the order they are made. *)
Inductive event : Type :=
| EvGetProperty (window : Z) (key : string)
| EvSocket
| EvSetTimeout (seconds : Z)
| EvConnect (host : string) (port : Z)
| EvSendall (data : string)
| EvRecv (bufsize : Z)
| EvClose
| EvLog (msg : string) (level : loglevel)
| EvGet (url : string) (params : pyval) (headers : gmap string pyval)
        (timeout : Z).

(** What [requests.get] hands back: the verdict of [raise_for_status()]
    ([None] when it does not raise; the rule on the status code is the
    library's), the result of [json()] and the attribute [text]. *)
Record response : Type := Response {
  raise_for_status : option exn;
  resp_json : outcome pyval;
  resp_text : string
}.

Record world : Type := World {
  (** [xbmcgui] is [None] when the import failed; otherwise it gives
      [Window(id).getProperty(key)]. *)
  xbmcgui : option (Z → string → outcome string);
  (** whether [xbmc] was imported, that is whether [xbmc.log] exists *)
  xbmc : bool;
  (** [socket.socket(AF_INET, SOCK_STREAM)]: the exception it raises, if any *)
  socket_socket : option exn;
  (** [sock.connect((host, port))] *)
  sock_connect : string → Z → option exn;
  (** [sock.sendall(data)] *)
  sock_sendall : string → option exn;
  (** the successive results of [sock.recv(4096)] once [data] was sent; past
      the end of the list the peer has closed and [recv] returns [b''] *)
  sock_recv : string → list (outcome string);
  json_dumps : pyval → outcome string;
  json_loads : string → outcome pyval;
  urlencode : pyval → outcome string;
  (** [str(v)] *)
  py_str : pyval → string;
  (** [requests.get(url, params=, headers=, timeout=)] *)
  requests_get : string → pyval → gmap string pyval → Z → outcome response
}.

(** ** State and computations *)

(** The module's globals *)
Record state : Type := State {
  HEADERS : gmap string pyval;
  DNS_SETTINGS : gmap string pyval
}.

(** The activation of [load_info_from_service]: the globals and the one
    local variable that an [except] clause reads, [result], which is
    [None] until it is assigned. *)
Record frame : Type := Frame {
  globals : state;
  result : option pyval
}.

Definition M (S A : Type) : Type := S → outcome A * S * list event.

Definition ret {S A} (a : A) : M S A := fun s => (Returns a, s, []).

Definition raise {S A} (e : exn) : M S A := fun s => (Raises e, s, []).

Definition bind {S A B} (m : M S A) (k : A → M S B) : M S B :=
  fun s =>
    match m s with
    | (Returns a, s', t) => let '(o, s'', t') := k a s' in (o, s'', (t ++ t')%list)
    | (Raises e, s', t) => (Raises e, s', t)
    end.

Notation "'do' x <- m ; k" := (bind m (fun x => k))
  (at level 10, x name, m at level 100, k at level 200).
Notation "'run' m ; k" := (bind m (fun _ => k))
  (at level 10, m at level 100, k at level 200).

(** The answer of a collaborator. *)
Definition lift {S A} (o : outcome A) : M S A := fun s => (o, s, []).

Definition check {S} (o : option exn) : M S unit :=
  match o with
  | None => ret tt
  | Some e => raise e
  end.

(** A call to a collaborator *)
Definition emit {S} (ev : event) : M S unit := fun s => (Returns tt, s, [ev]).

Definition gets {A} (f : state → A) : M state A :=
  fun s => (Returns (f s), s, []).

(** A statement on the globals, executed inside an activation. *)
Definition in_frame {A} (m : M state A) : M frame A :=
  fun f => let '(o, s', t) := m (globals f) in (o, Frame s' (result f), t).

(** [result = v] *)
Definition assign_result (v : pyval) : M frame unit :=
  fun f => (Returns tt, Frame (globals f) (Some v), []).

(** Reading [result]: an [UnboundLocalError] while it is not assigned. *)
Definition read_result : M frame pyval :=
  fun f =>
    match result f with
    | Some v => (Returns v, f, [])
    | None => (Raises (UnboundLocalError "result"), f, [])
    end.

(** [try: body  except C1 as e: h1  except C2 as e: h2 ...]: the first clause
    whose class matches handles the exception, and what its handler raises
    is not offered to the clauses after it. *)
Definition try_except {S A} (body : M S A)
    (clauses : list ((exn → bool) * (exn → M S A))) : M S A :=
  fun s =>
    match body s with
    | (Returns a, s', t) => (Returns a, s', t)
    | (Raises e, s', t) =>
        match List.find (fun c => c.1 e) clauses with
        | Some c => let '(o, s'', t') := c.2 e s' in (o, s'', (t ++ t')%list)
        | None => (Raises e, s', t)
        end
    end.

(** ** The configuration setters (lines 50-61) *)

Definition SERVICE_HOST : string := "127.0.0.1".

(** [d.update(new)] *)
Definition dict_update (d new : gmap string pyval) : gmap string pyval :=
  new ∪ d.

Definition set_headers (headers : gmap string pyval) : M state unit :=
  fun s =>
    let cleared := State ∅ (DNS_SETTINGS s) in
    (Returns tt,
     State (dict_update (HEADERS cleared) headers) (DNS_SETTINGS cleared), []).

(** [settings] is a mapping or [None]. *)
Definition set_dns_settings (settings : option (gmap string pyval))
    : M state unit :=
  fun s =>
    let cleared := State (HEADERS s) ∅ in
    match settings with
    | Some d =>
        if truthy (PDict d) then
          (Returns tt,
           State (HEADERS cleared) (dict_update (DNS_SETTINGS cleared) d), [])
        else (Returns tt, cleared, [])
    | None => (Returns tt, cleared, [])
    end.

(** ** The service client (lines 63-137) *)

Definition PORT_PROPERTY : string := "TMDB_OPTIMIZATION_SERVICE_PORT".

(** Lines 69-76, port discovery.  [inr port] goes on to the socket;
    [inl v] is the [return v] of line 76. *)
Definition get_service_port (w : world) : M frame (pyval + Z) :=
  let service_port := 56789 in
  match xbmcgui w with
  | Some getProperty =>
      run emit (EvGetProperty 10000 PORT_PROPERTY);
      do port_str <- lift (getProperty 10000 PORT_PROPERTY);
      if negb (String.eqb port_str "") then
        match py_int port_str with
        | Some service_port => ret (inr service_port)
        | None =>
            raise (ValueError ("invalid literal for int() with base 10: '"
                               ++ port_str ++ "'"))
        end
      else
        ret (inl (error_dict (PStr "Service port not found in Window Property")))
  | None => ret (inr service_port)
  end.

(** Lines 78-80 *)
Definition open_socket (w : world) (service_port : Z) : M state unit :=
  run emit EvSocket;
  run check (socket_socket w);
  run emit (EvSetTimeout 35);
  run emit (EvConnect SERVICE_HOST service_port);
  check (sock_connect w SERVICE_HOST service_port).

(** Lines 82-95, the protocol V2 payload *)
Definition build_request_data (url : string)
    (params headers batch_payload dns_settings : pyval)
    (DNS : gmap string pyval) : pyval :=
  let requests_list :=
    if truthy batch_payload then batch_payload
    else PList [PDict (<["url" := PStr url]>
                       (<["params" := params]>
                        {["headers" := py_or headers (PDict ∅)]}))] in
  PDict (<["requests" := requests_list]>
         {["dns_settings" := py_or dns_settings (PDict DNS)]}).

(** Lines 101-105, [while True]: one [recv] per turn, until a read is empty. *)
Fixpoint recv_loop (answers : list (outcome string)) (response_data : string)
    : M state string :=
  run emit (EvRecv 4096);
  match answers with
  | [] => ret response_data
  | Returns chunk :: answers' =>
      if negb (String.eqb chunk "") then recv_loop answers' (response_data ++ chunk)
      else ret response_data
  | Raises e :: _ => raise e
  end.

(** Lines 97-107: send the payload, read the answer, close. *)
Definition send_and_read (w : world) (request_data : pyval) : M state string :=
  do payload <- lift (json_dumps w request_data);
  run emit (EvSendall payload);
  run check (sock_sendall w payload);
  do response_data <- recv_loop (sock_recv w payload) "";
  run emit EvClose;
  ret response_data.

(** Lines 69-107, the [try] body up to [sock.close()]: [inl v] is the early
    [return v] of port discovery, [inr response_data] what was read. *)
Definition service_io (w : world) (url : string)
    (params headers batch_payload dns_settings : pyval)
    : M frame (pyval + string) :=
  do p <- get_service_port w;
  match p with
  | inl v => ret (inl v)
  | inr service_port =>
      run in_frame (open_socket w service_port);
      do DNS <- in_frame (gets DNS_SETTINGS);
      do response_data <-
        in_frame (send_and_read w
                    (build_request_data url params headers batch_payload
                                        dns_settings DNS));
      ret (inr response_data)
  end.

(** Lines 114-116: [not batch_payload and isinstance(result, list) and
    len(result) == 1] selects [result[0]]. *)
Definition unwrap (batch_payload result : pyval) : pyval :=
  if negb (truthy batch_payload) then
    match result with
    | PList [x] => x
    | _ => result
    end
  else result.

(** Lines 109-118 *)
Definition decode_response (w : world) (batch_payload : pyval)
    (response_data : string) : M frame pyval :=
  if negb (String.eqb response_data "") then
    do r <- lift (json_loads w response_data);
    run assign_result r;
    ret (unwrap batch_payload r)
  else ret (error_dict (PStr "Empty response from service")).

(** Lines 68-118, the [try] body *)
Definition service_body (w : world) (url : string)
    (params headers batch_payload dns_settings : pyval) : M frame pyval :=
  do r <- service_io w url params headers batch_payload dns_settings;
  match r with
  | inl v => ret v
  | inr response_data => decode_response w batch_payload response_data
  end.

(** Lines 120-125, the first [except Exception as e] clause *)
Definition first_handler (e : exn) : M frame pyval :=
  do r <- read_result;
  match r with
  | PDict d =>
      match d !! "error" with
      | Some x => ret (error_dict x)
      | None => ret r
      end
  | _ => ret r
  end.

(** Lines 127-130 and 134-137, the second and third clauses (the [return
    result] of line 132 follows a [return]) *)
Definition logging_handler (w : world) (e : exn) : M frame pyval :=
  run (if xbmc w
       then emit (EvLog ("[TMDB Scraper] Service IPC Error: " ++ exn_str e)
                        LOGERROR)
       else ret tt);
  ret (error_dict (PStr ("Service communication failed: " ++ exn_str e))).

(** The whole statement, on the activation record. *)
Definition service_call (w : world) (url : string)
    (params headers batch_payload dns_settings : pyval) : M frame pyval :=
  try_except (service_body w url params headers batch_payload dns_settings)
    [ (is_Exception, first_handler);
      (is_Exception, logging_handler w);
      (is_Exception, logging_handler w) ].

(** [load_info_from_service(url, params, headers, batch_payload,
    dns_settings)]: a call starts with [result] unassigned and leaves the
    globals behind. *)
Definition load_info_from_service (w : world) (url : string)
    (params headers batch_payload dns_settings : pyval) : M state pyval :=
  fun s =>
    let '(o, f, t) :=
      service_call w url params headers batch_payload dns_settings
                   (Frame s None) in
    (o, globals f, t).

(** ** The facade (lines 139-189) *)

(** Lines 152-159, the debug log of the request *)
Definition log_request (w : world) (url : string) (params : pyval)
    : M state unit :=
  if xbmc w then
    do log_url <- (if truthy params
                   then do q <- lift (urlencode w params); ret (url ++ "?" ++ q)
                   else ret url);
    run emit (EvLog ("Calling URL " ++ dquote ++ log_url ++ dquote) LOGDEBUG);
    do H <- gets HEADERS;
    if truthy (PDict H) then emit (EvLog (py_str w (PDict H)) LOGDEBUG)
    else ret tt
  else ret tt.

(** Lines 164-169, the service answered *)
Definition service_success (w : world) (resp_type : string)
    (service_result : pyval) : M state pyval :=
  if String.eqb (py_lower resp_type) "json" then
    do j <- lift (py_get service_result "json" PNone);
    if truthy j then ret j
    else
      do t <- lift (py_get service_result "text" (PStr "{}"));
      lift (py_json_loads (json_loads w) t)
  else lift (py_get service_result "text" PNone).

(** Lines 175-183, the direct request *)
Definition direct_request (w : world) (url : string) (params : pyval)
    (resp_type : string) : M state pyval :=
  do H <- gets HEADERS;
  run emit (EvGet url params H 30);
  do resp <- lift (requests_get w url params H 30);
  run check (raise_for_status resp);
  if String.eqb (py_lower resp_type) "json" then lift (resp_json resp)
  else ret (PStr (resp_text resp)).

(** Lines 185-189 *)
Definition direct_failure (dflt : pyval) (e : exn) : M state pyval :=
  let theerror := error_dict (PStr ("Direct request failed: " ++ exn_str e)) in
  if negb (is_None dflt) then ret dflt else ret theerror.

(** Lines 170-189, the service reported an error *)
Definition service_fallback (w : world) (url : string) (params dflt : pyval)
    (resp_type : string) (service_result : pyval) : M state pyval :=
  run (if xbmc w then
         do err <- lift (py_getitem service_result "error");
         emit (EvLog ("[TMDB Scraper] -----Service unavailable ("
                      ++ py_str w err
                      ++ "), falling back to direct request") LOGWARNING)
       else ret tt);
  try_except (direct_request w url params resp_type)
    [ (is_Exception, direct_failure dflt) ].

(** [load_info(url, params, default, resp_type)] *)
Definition load_info (w : world) (url : string) (params dflt : pyval)
    (resp_type : string) : M state pyval :=
  run log_request w url params;
  do H <- gets HEADERS;
  do service_result <- load_info_from_service w url params (PDict H) PNone PNone;
  do has_error <- lift (py_contains "error" service_result);
  if negb has_error then service_success w resp_type service_result
  else service_fallback w url params dflt resp_type service_result.

(** ** Hosts to run the code on

    Test doubles for the collaborators: each answers the calls of one
    scenario with canned values. *)

Module Scenarios.

Definition quoted (s : string) : string := dquote ++ s ++ dquote.

Definition refused : exn :=
  LibraryError "ConnectionRefusedError" "[Errno 111] Connection refused".

Definition decode_error : exn :=
  LibraryError "JSONDecodeError" "Expecting value: line 1 column 1 (char 0)".

Definition connection_error : exn :=
  LibraryError "ConnectionError" "Max retries exceeded".

(** A property store whose port property holds [port_str]. *)
Definition kodi (port_str : string) : option (Z → string → outcome string) :=
  Some (fun _ key =>
          if String.eqb key PORT_PROPERTY then Returns port_str
          else Returns "").

(** A decoder that knows the texts of [table] only. *)
Definition decode_table (table : list (string * pyval)) (text : string)
    : outcome pyval :=
  match List.find (fun row => String.eqb row.1 text) table with
  | Some row => Returns row.2
  | None => Raises decode_error
  end.

(** The text every request is serialized to. *)
Definition request_text : string :=
  "{" ++ quoted "requests" ++ ": [], " ++ quoted "dns_settings" ++ ": {}}".

Definition host (gui : option (Z → string → outcome string)) (log : bool)
    (connect : option exn) (answers : list (outcome string))
    (table : list (string * pyval)) (get : outcome response) : world :=
  {| xbmcgui := gui;
     xbmc := log;
     socket_socket := None;
     sock_connect := fun _ _ => connect;
     sock_sendall := fun _ => None;
     sock_recv := fun _ => answers;
     json_dumps := fun _ => Returns request_text;
     json_loads := decode_table table;
     urlencode := fun _ => Returns "api_key=k";
     py_str := fun v => match v with PStr s => s | _ => "{...}" end;
     requests_get := fun _ _ _ _ => get |}.

Definition s0 : state := State ∅ ∅.

Definition url : string := "https://api.themoviedb.org/3/movie/550".

(** [{"status": 200, "text": "{}"}] *)
Definition item : pyval :=
  PDict (<["status" := PInt 200]> {["text" := PStr "{}"]}).
Definition item_text : string :=
  "{" ++ quoted "status" ++ ": 200, " ++ quoted "text" ++ ": "
      ++ quoted "{}" ++ "}".

(** [{"json": []}] *)
Definition empty_json : pyval := PDict {["json" := PList []]}.
Definition empty_json_text : string := "{" ++ quoted "json" ++ ": []}".

(** [{"error": "x"}] *)
Definition failed : pyval := error_dict (PStr "x").
Definition failed_text : string :=
  "{" ++ quoted "error" ++ ": " ++ quoted "x" ++ "}".

(** [{"status": 204}] *)
Definition no_text : pyval := PDict {["status" := PInt 204]}.
Definition no_text_text : string := "{" ++ quoted "status" ++ ": 204}".

Definition table : list (string * pyval) :=
  [ ("[" ++ item_text ++ "]", PList [item]);
    ("[" ++ empty_json_text ++ "]", PList [empty_json]);
    ("[" ++ failed_text ++ "]", PList [failed]);
    ("[" ++ no_text_text ++ "]", PList [no_text]);
    ("{}", PDict ∅) ].

(** The service is not running. *)
Definition service_down : world :=
  host (kodi "45123") true (Some refused) [] table (Raises connection_error).

(** The port property holds text that is no number. *)
Definition bad_port : world :=
  host (kodi "abc") true None [] table (Raises connection_error).

(** The port property is not set. *)
Definition no_port : world :=
  host (kodi "") false None [] table (Raises connection_error).

(** Outside Kodi, a service on the default port that answers [text] in
    two reads. *)
Definition answering (text : string) (get : outcome response) : world :=
  host None false None
       [Returns (String.substring 0 3 text);
        Returns (String.substring 3 (String.length text) text)]
       table get.

(** Inside Kodi, the same service on port 45123. *)
Definition answering_kodi (text : string) (get : outcome response) : world :=
  host (kodi "45123") true None [Returns text] table get.

(** A service that accepts the connection and closes it at once. *)
Definition silent : world :=
  host None false None [] table (Raises connection_error).

(** The direct endpoint answers 200 with the body [{"b": 2}]. *)
Definition ok_response : response :=
  {| raise_for_status := None;
     resp_json := Returns (PDict {["b" := PInt 2]});
     resp_text := "{" ++ quoted "b" ++ ": 2}" |}.

End Scenarios.

(** ** Reasoning about computations *)

(** [triple I P m Q]: started in a state of [I], [m] ends in a state of
    [I], makes only calls of [P] and, when it returns, returns a value of
    [Q]. *)
Definition triple {S A} (I : S → Prop) (P : event → Prop) (m : M S A)
    (Q : A → Prop) : Prop :=
  ∀ s o s' t, I s → m s = (o, s', t) →
    I s' ∧ Forall P t ∧ ∀ a, o = Returns a → Q a.

Definition is_get (ev : event) : bool :=
  match ev with EvGet _ _ _ _ => true | _ => false end.

Definition is_socket_call (ev : event) : bool :=
  match ev with
  | EvSocket | EvSetTimeout _ | EvConnect _ _ | EvSendall _ | EvRecv _
  | EvClose => true
  | _ => false
  end.

(** The port the client connects to: the fallback when there is no
    property store, the number the port property holds when there is one. *)
Definition discovered_port (w : world) (port : Z) : Prop :=
  match xbmcgui w with
  | None => port = 56789
  | Some getProperty =>
      ∃ port_str, getProperty 10000 PORT_PROPERTY = Returns port_str
                  ∧ port_str ≠ "" ∧ py_int port_str = Some port
  end.

(** The calls one run of the service client may make, for the request
    [request_data]. *)
Definition service_event (w : world) (request_data : pyval) (ev : event)
    : Prop :=
  match ev with
  | EvGetProperty window key =>
      window = 10000 ∧ key = PORT_PROPERTY ∧ is_Some (xbmcgui w)
  | EvSocket | EvClose => True
  | EvSetTimeout seconds => seconds = 35
  | EvConnect host port => host = SERVICE_HOST ∧ discovered_port w port
  | EvSendall data => json_dumps w request_data = Returns data
  | EvRecv bufsize => bufsize = 4096
  | EvLog _ _ | EvGet _ _ _ _ => False
  end.

(** The request [load_info] sends for [url] and [params] under the globals
    [s]: one envelope, carrying the headers of [s]. *)
Definition single_request (url : string) (params : pyval) (s : state) : pyval :=
  PDict (<["requests" :=
             PList [PDict (<["url" := PStr url]>
                           (<["params" := params]>
                            {["headers" := PDict (HEADERS s)]}))]]>
         {["dns_settings" := PDict (DNS_SETTINGS s)]}).

(** The calls one run of [load_info] may make. *)
Definition facade_event (w : world) (url : string) (params : pyval)
    (s : state) (ev : event) : Prop :=
  match ev with
  | EvLog _ _ => xbmc w = true
  | EvGet url' params' headers timeout =>
      url' = url ∧ params' = params ∧ headers = HEADERS s ∧ timeout = 30
  | _ => service_event w (single_request url params s) ev
  end.

(** ** Vocabulary for the properties of the calls *)

Definition is_log (ev : event) : bool :=
  match ev with EvLog _ _ => true | _ => false end.

(** The property lookup a call starts with when there is a property
    store. *)
Definition lookup_calls (w : world) : list event :=
  match xbmcgui w with
  | Some _ => [EvGetProperty 10000 PORT_PROPERTY]
  | None => []
  end.

(** The socket calls of one complete exchange with the service on [port]:
    [payload] sent, [reads] calls of [recv], the socket closed. *)
Definition exchange_calls (port : Z) (payload : string) (reads : nat)
    : list event :=
  ([EvSocket; EvSetTimeout 35; EvConnect SERVICE_HOST port; EvSendall payload]
   ++ repeat (EvRecv 4096) reads ++ [EvClose])%list.

(** [b''.join(chunks)] *)
Definition join_chunks (chunks : list string) : string :=
  foldr String.append "" chunks.

(** The two results the client makes up itself. *)
Definition port_not_found : pyval :=
  error_dict (PStr "Service port not found in Window Property").
Definition empty_response : pyval :=
  error_dict (PStr "Empty response from service").

(** The same collaborators without [xbmc], the logging module. *)
Definition without_xbmc (w : world) : world :=
  {| xbmcgui := xbmcgui w;
     xbmc := false;
     socket_socket := socket_socket w;
     sock_connect := sock_connect w;
     sock_sendall := sock_sendall w;
     sock_recv := sock_recv w;
     json_dumps := json_dumps w;
     json_loads := json_loads w;
     urlencode := urlencode w;
     py_str := py_str w;
     requests_get := requests_get w |}.

Module MoreScenarios.

(** Inside Kodi, with parameters that [urlencode] cannot encode. *)
Definition unencodable : world :=
  {| xbmcgui := Scenarios.kodi "45123";
     xbmc := true;
     socket_socket := None;
     sock_connect := fun _ _ => None;
     sock_sendall := fun _ => None;
     sock_recv := fun _ => [Returns ("[" ++ Scenarios.item_text ++ "]")];
     json_dumps := fun _ => Returns Scenarios.request_text;
     json_loads := Scenarios.decode_table Scenarios.table;
     urlencode := fun _ =>
       Raises (TypeError "not a valid non-string sequence or mapping object");
     py_str := fun _ => "{...}";
     requests_get := fun _ _ _ _ => Returns Scenarios.ok_response |}.

(** A service whose answer arrives in three reads, the last of which
    times out. *)
Definition timing_out : world :=
  Scenarios.host None false None
    [Returns "[{"; Returns "}"; Raises (LibraryError "timeout" "timed out")]
    Scenarios.table (Raises Scenarios.connection_error).

(** A service that answers a JSON array of two results. *)
Definition two_results_text : string :=
  "[" ++ Scenarios.item_text ++ ", " ++ Scenarios.item_text ++ "]".
Definition two_results : world :=
  Scenarios.host None false None [Returns two_results_text]
    (( two_results_text, PList [Scenarios.item; Scenarios.item])
     :: Scenarios.table)
    (Returns Scenarios.ok_response).

(** The port property holds a number that is no TCP port. *)
Definition port_out_of_range : world :=
  Scenarios.host (Scenarios.kodi "-5") false
    (Some (LibraryError "OverflowError" "bind(): port must be 0-65535."))
    [] Scenarios.table (Raises Scenarios.connection_error).

(** A serializer that shows the headers of a single request: the entries
    of the ['headers'] of the one envelope, in the order of the keys. *)
Definition render_headers (h : gmap string pyval) : string :=
  String.concat ", "
    ((fun kv : string * pyval =>
        Scenarios.quoted kv.1 ++ ": "
        ++ Scenarios.quoted (match kv.2 with PStr x => x | _ => "?" end))
     <$> map_to_list h).

Definition dumps_with_headers (v : pyval) : outcome string :=
  match v with
  | PDict d =>
      match d !! "requests" with
      | Some (PList [PDict r]) =>
          match r !! "headers" with
          | Some (PDict h) =>
              Returns ("{" ++ Scenarios.quoted "requests" ++ ": [{"
                       ++ Scenarios.quoted "headers" ++ ": {"
                       ++ render_headers h ++ "}}]}")
          | _ => Returns Scenarios.request_text
          end
      | _ => Returns Scenarios.request_text
      end
  | _ => Raises (TypeError "Object is not JSON serializable")
  end.

(** Inside Kodi, a service on port 45123 that reports an error, a direct
    endpoint that answers, and a serializer that shows the headers. *)
Definition showing_headers : world :=
  {| xbmcgui := Scenarios.kodi "45123";
     xbmc := true;
     socket_socket := None;
     sock_connect := fun _ _ => None;
     sock_sendall := fun _ => None;
     sock_recv := fun _ => [Returns ("[" ++ Scenarios.failed_text ++ "]")];
     json_dumps := dumps_with_headers;
     json_loads := Scenarios.decode_table Scenarios.table;
     urlencode := fun _ => Returns "api_key=k";
     py_str := fun v => match v with PStr x => x | _ => "{...}" end;
     requests_get := fun _ _ _ _ => Returns Scenarios.ok_response |}.

(** The payload [showing_headers] sends for the one header [X: 1]. *)
Definition payload_with_x : string :=
  "{" ++ Scenarios.quoted "requests" ++ ": [{" ++ Scenarios.quoted "headers"
      ++ ": {" ++ Scenarios.quoted "X" ++ ": " ++ Scenarios.quoted "1"
      ++ "}}]}".

(** [n] times the digit 1 *)
Fixpoint ones (n : nat) : string :=
  match n with
  | O => EmptyString
  | S n' => String "1"%char (ones n')
  end.

End MoreScenarios.

(** ** The builtins and the model at work *)

Example py_int_port : py_int "45123" = Some 45123.
Proof. reflexivity. Qed.

Example py_int_spaces_sign_underscore : py_int " +1_000 " = Some 1000.
Proof. reflexivity. Qed.

Example py_int_letters : py_int "abc" = None.
Proof. reflexivity. Qed.

Example py_int_double_underscore : py_int "1__0" = None.
Proof. reflexivity. Qed.

(** The separators FS, GS, RS, US are no whitespace for [int]. *)
Example py_int_separator_padding :
  py_int (String (ascii_of_nat 28) "7") = None.
Proof. reflexivity. Qed.

Example py_int_at_the_digit_limit :
  py_int (String "0"%char (MoreScenarios.ones 4299)) <> None
  ∧ py_int (String "0"%char (MoreScenarios.ones 4300)) = None.
Proof. split; [vm_compute; discriminate | vm_compute; reflexivity]. Qed.

Example py_lower_json : py_lower "JSON" = "json".
Proof. reflexivity. Qed.

Example error_in_text : py_contains "error" (PStr "no error") = Returns true.
Proof. reflexivity. Qed.

Example error_in_number :
  py_contains "error" (PInt 3)
  = Raises (TypeError "argument of type 'int' is not iterable").
Proof. reflexivity. Qed.

(** The peer sends two chunks and closes: three reads, the chunks joined. *)
Example recv_loop_two_chunks :
  recv_loop [Returns "ab"; Returns "cd"] "" Scenarios.s0
  = (Returns "abcd", Scenarios.s0, [EvRecv 4096; EvRecv 4096; EvRecv 4096]).
Proof. reflexivity. Qed.

(** A read that times out ends the loop with the exception. *)
Example recv_loop_timeout :
  recv_loop [Returns "ab"; Raises (LibraryError "timeout" "timed out")] ""
            Scenarios.s0
  = (Raises (LibraryError "timeout" "timed out"), Scenarios.s0,
     [EvRecv 4096; EvRecv 4096]).
Proof. reflexivity. Qed.

(** With the service down, [load_info] never gets to its fallback: the
    exception of the service client passes through it. *)
Example load_info_service_down :
  (load_info Scenarios.service_down Scenarios.url PNone (PList []) "json"
             Scenarios.s0).1.1
  = Raises (UnboundLocalError "result").
Proof. reflexivity. Qed.

Section Triple.
Context {S : Type} (I : S → Prop) (P : event → Prop).

Lemma triple_ret {A} (a : A) : triple I P (ret a) (fun x => x = a).
Proof.
  intros s o s' t Hs [= <- <- <-]. split_and!; [done | constructor |].
  by intros ? [= <-].
Qed.

Lemma triple_raise {A} (e : exn) : triple I P (@raise S A e) (fun _ => False).
Proof.
  intros s o s' t Hs [= <- <- <-]. split_and!; [done | constructor | done].
Qed.

Lemma triple_lift {A} (o : outcome A) :
  triple I P (lift o) (fun a => o = Returns a).
Proof.
  intros s o' s' t Hs [= <- <- <-]. split_and!; [done | constructor | done].
Qed.

Lemma triple_check (o : option exn) : triple I P (check o) (fun _ => o = None).
Proof.
  intros s o' s' t Hs. destruct o as [e|]; intros [= <- <- <-];
    (split_and!; [done | constructor | done]).
Qed.

Lemma triple_emit (ev : event) : P ev → triple I P (emit ev) (fun _ => True).
Proof.
  intros HP s o s' t Hs [= <- <- <-].
  split_and!; [done | by repeat constructor | done].
Qed.

Lemma triple_bind {A B} (m : M S A) (k : A → M S B) (Q : A → Prop)
    (R : B → Prop) :
  triple I P m Q → (∀ a, Q a → triple I P (k a) R) → triple I P (bind m k) R.
Proof.
  intros Hm Hk s o s' t Hs. unfold bind.
  destruct (m s) as [[[a|e] s1] t1] eqn:Em;
    destruct (Hm _ _ _ _ Hs Em) as (H1 & H2 & H3).
  - destruct (k a s1) as [[o2 s2] t2] eqn:Ek. intros [= <- <- <-].
    destruct (Hk a (H3 a eq_refl) _ _ _ _ H1 Ek) as (? & ? & ?).
    split_and!; [done | by apply Forall_app | done].
  - intros [= <- <- <-]. split_and!; done.
Qed.

Lemma triple_weaken {A} (m : M S A) (Q R : A → Prop) :
  triple I P m Q → (∀ a, Q a → R a) → triple I P m R.
Proof.
  intros Hm HQR s o s' t Hs Em. destruct (Hm _ _ _ _ Hs Em) as (? & ? & ?).
  split_and!; auto.
Qed.

Lemma triple_try_except {A} (body : M S A) clauses (Q : A → Prop) :
  triple I P body Q →
  Forall (fun c => ∀ e, triple I P (c.2 e) Q) clauses →
  triple I P (try_except body clauses) Q.
Proof.
  intros Hb Hc s o s' t Hs. unfold try_except.
  destruct (body s) as [[[a|e] s1] t1] eqn:Eb;
    destruct (Hb _ _ _ _ Hs Eb) as (H1 & H2 & H3).
  - intros [= <- <- <-]. done.
  - destruct (List.find _ clauses) as [c|] eqn:Ec.
    + apply find_some in Ec as [Hin _]. apply list_elem_of_In in Hin.
      rewrite Forall_forall in Hc. specialize (Hc c Hin e).
      destruct (c.2 e s1) as [[o2 s2] t2] eqn:Eh. intros [= <- <- <-].
      destruct (Hc _ _ _ _ H1 Eh) as (? & ? & ?).
      split_and!; [done | by apply Forall_app | done].
    + intros [= <- <- <-]. done.
Qed.

End Triple.

(** The last statement of a block, when nothing is asked of its value. *)
Ltac triple_leaf :=
  eapply triple_weaken;
  [ first [ apply triple_ret | apply triple_raise | apply triple_lift
          | apply triple_check ]
  | done ].

Lemma triple_gets {A} (I : state → Prop) P (f : state → A) :
  triple I P (gets f) (fun a => ∃ s, I s ∧ a = f s).
Proof.
  intros s o s' t Hs [= <- <- <-]. split_and!; [done | constructor |].
  intros ? [= <-]. eauto.
Qed.

(** A statement on the globals leaves [result] as it is. *)
Lemma triple_in_frame {A} (I : state → Prop) (J : option pyval → Prop) P
    (m : M state A) (Q : A → Prop) :
  triple I P m Q →
  triple (fun f => I (globals f) ∧ J (result f)) P (in_frame m) Q.
Proof.
  intros Hm f o f' t [HI HJ]. unfold in_frame.
  destruct (m (globals f)) as [[o1 s1] t1] eqn:Em. intros [= <- <- <-].
  destruct (Hm _ _ _ _ HI Em) as (? & ? & ?). done.
Qed.

Lemma triple_recv_loop (I : state → Prop) P answers response_data :
  P (EvRecv 4096) →
  triple I P (recv_loop answers response_data) (fun _ => True).
Proof.
  intros HP. revert response_data.
  induction answers as [|[chunk|e] answers IH]; intros response_data; simpl;
    (eapply triple_bind; [by apply triple_emit|]); intros _ _.
  - triple_leaf.
  - destruct (negb _); [apply IH|].
    triple_leaf.
  - triple_leaf.
Qed.

(** ** The service client: what it calls, and what becomes of an exception *)

Lemma get_service_port_events (I : frame → Prop) (w : world) request_data :
  triple I (service_event w request_data) (get_service_port w)
    (fun p => match p with
              | inr port => discovered_port w port
              | inl _ => True
              end).
Proof.
  unfold get_service_port, discovered_port.
  destruct (xbmcgui w) as [getProperty|] eqn:Egui.
  - eapply triple_bind;
      [apply triple_emit; simpl; rewrite Egui; eauto|]; intros _ _.
    eapply triple_bind; [apply triple_lift|]; intros port_str Hstr.
    destruct (String.eqb port_str "") eqn:Hempty; simpl.
    + eapply triple_weaken; [apply triple_ret|]. by intros ? ->.
    + destruct (py_int port_str) as [port|] eqn:Hint.
      * eapply triple_weaken; [apply triple_ret|]. intros ? ->.
        exists port_str. split_and!; [done | | done].
        intros ->. by rewrite String.eqb_refl in Hempty.
      * triple_leaf.
  - eapply triple_weaken; [apply triple_ret|]. by intros ? ->.
Qed.

Lemma open_socket_events (I : state → Prop) (w : world) request_data port :
  discovered_port w port →
  triple I (service_event w request_data) (open_socket w port) (fun _ => True).
Proof.
  intros Hport. unfold open_socket.
  eapply triple_bind; [by apply triple_emit|]; intros _ _.
  eapply triple_bind; [apply triple_check|]; intros _ _.
  eapply triple_bind; [by apply triple_emit|]; intros _ _.
  eapply triple_bind; [by apply triple_emit|]; intros _ _.
  triple_leaf.
Qed.

Lemma send_and_read_events (I : state → Prop) (w : world) request_data :
  triple I (service_event w request_data) (send_and_read w request_data)
    (fun _ => True).
Proof.
  unfold send_and_read.
  eapply triple_bind; [apply triple_lift|]; intros payload Hpayload.
  eapply triple_bind; [by apply triple_emit|]; intros _ _.
  eapply triple_bind; [apply triple_check|]; intros _ _.
  eapply triple_bind; [by apply triple_recv_loop|]; intros response_data _.
  eapply triple_bind; [by apply triple_emit|]; intros _ _.
  triple_leaf.
Qed.

(** Up to [sock.close()] the client leaves the globals and [result] alone
    and makes only the calls of [service_event]. *)
Lemma service_io_events (w : world) url params headers batch_payload
    dns_settings (s0 : state) (J : option pyval → Prop) :
  triple (fun f => globals f = s0 ∧ J (result f))
    (service_event w (build_request_data url params headers batch_payload
                                         dns_settings (DNS_SETTINGS s0)))
    (service_io w url params headers batch_payload dns_settings)
    (fun _ => True).
Proof.
  unfold service_io.
  eapply triple_bind; [apply get_service_port_events|].
  intros [v|port] Hport.
  { triple_leaf. }
  eapply triple_bind.
  { apply (triple_in_frame (fun s => s = s0) J), open_socket_events, Hport. }
  intros _ _. eapply triple_bind.
  { apply (triple_in_frame (fun s => s = s0) J), triple_gets. }
  intros DNS (s & -> & ->). eapply triple_bind.
  { apply (triple_in_frame (fun s => s = s0) J), send_and_read_events. }
  intros response_data _. triple_leaf.
Qed.

(** The whole [try] body: it leaves the globals alone, makes only the
    calls of [service_event], and whenever it raises, [result] is still
    unassigned. *)
Lemma service_body_spec (w : world) url params headers batch_payload
    dns_settings (s : state) o f t :
  service_body w url params headers batch_payload dns_settings (Frame s None)
    = (o, f, t) →
  globals f = s
  ∧ Forall (service_event w (build_request_data url params headers
                               batch_payload dns_settings (DNS_SETTINGS s))) t
  ∧ (∀ e, o = Raises e → result f = None).
Proof.
  unfold service_body, bind.
  destruct (service_io _ _ _ _ _ _ _) as [[r f1] t1] eqn:Eio.
  apply (service_io_events w url params headers batch_payload dns_settings s
           (fun r => r = None)) in Eio as ((Hg & Hr) & Ht & _); [|done].
  destruct r as [[v|response_data]|e].
  - intros [= <- <- <-]. rewrite app_nil_r. done.
  - unfold decode_response, bind, lift, assign_result, ret.
    destruct (negb _); [destruct (json_loads w response_data) as [r|e]|];
      simpl; intros [= <- <- <-]; rewrite ?app_nil_r; done.
  - intros [= <- <- <-]. done.
Qed.

(** The first [except] clause is the one that runs, and it reads [result]:
    what the body returns is returned, and whatever the body raises is
    replaced by the [UnboundLocalError] of that read, which leaves the
    function.  The clauses of lines 127-137 never run. *)
Lemma load_info_from_service_eq (w : world) url params headers batch_payload
    dns_settings (s : state) :
  load_info_from_service w url params headers batch_payload dns_settings s =
  let '(o, _, t) :=
    service_body w url params headers batch_payload dns_settings
                 (Frame s None) in
  (match o with
   | Returns v => Returns v
   | Raises _ => Raises (UnboundLocalError "result")
   end, s, t).
Proof.
  unfold load_info_from_service, service_call, try_except.
  destruct (service_body _ _ _ _ _ _ _) as [[[v|e] f] t] eqn:Ebody;
    apply service_body_spec in Ebody as (Hg & _ & Hr); simpl.
  - by rewrite Hg.
  - unfold first_handler, bind, read_result. rewrite (Hr e eq_refl).
    by rewrite Hg, app_nil_r.
Qed.

Lemma load_info_from_service_events (w : world) url params headers
    batch_payload dns_settings (s : state) o s' t :
  load_info_from_service w url params headers batch_payload dns_settings s
    = (o, s', t) →
  s' = s
  ∧ Forall (service_event w (build_request_data url params headers
                               batch_payload dns_settings (DNS_SETTINGS s))) t.
Proof.
  rewrite load_info_from_service_eq.
  destruct (service_body _ _ _ _ _ _ _) as [[o1 f] t1] eqn:Ebody.
  apply service_body_spec in Ebody as (_ & Ht & _). by intros [= <- <- <-].
Qed.

Lemma error_dict_inj (x y : pyval) : error_dict x = error_dict y → x = y.
Proof.
  unfold error_dict. intros H.
  apply (f_equal (fun v => match v with
                           | PDict d => d !! "error"
                           | _ => None
                           end)) in H.
  rewrite !lookup_singleton_eq in H. congruence.
Qed.

Lemma run_decode (w : world) url params headers batch_payload dns_settings
    (s : state) response_data f t :
  service_io w url params headers batch_payload dns_settings (Frame s None)
    = (Returns (inr response_data), f, t) →
  load_info_from_service w url params headers batch_payload dns_settings s =
  if String.eqb response_data "" then
    (Returns (error_dict (PStr "Empty response from service")), s, t)
  else
    match json_loads w response_data with
    | Returns r => (Returns (unwrap batch_payload r), s, t)
    | Raises _ => (Raises (UnboundLocalError "result"), s, t)
    end.
Proof.
  intros Hio. rewrite load_info_from_service_eq.
  unfold service_body, bind. rewrite Hio. unfold decode_response.
  destruct (String.eqb response_data ""); simpl.
  - by rewrite app_nil_r.
  - unfold bind, lift.
    destruct (json_loads w response_data); simpl; by rewrite app_nil_r.
Qed.

(** ** C1 and C2: exceptions in the service client *)

(** C1 (code bug).  The claim is that every exception raised during the
    operation is turned into [{'error': message}] and none leaves
    [load_info_from_service].  The code does the opposite: whenever the
    [try] body raises (whatever the exception: property store, [int],
    socket, JSON), the first [except] clause reads the unassigned [result]
    and the function raises [UnboundLocalError]. *)
Theorem service_exception_escapes (w : world) url params headers
    batch_payload dns_settings (s : state) e f t :
  service_body w url params headers batch_payload dns_settings (Frame s None)
    = (Raises e, f, t) →
  load_info_from_service w url params headers batch_payload dns_settings s
    = (Raises (UnboundLocalError "result"), s, t).
Proof. intros Hbody. by rewrite load_info_from_service_eq, Hbody. Qed.

(** The service is not running: the refused connection surfaces as an
    [UnboundLocalError]. *)
Lemma service_exception_escapes_witness :
  load_info_from_service Scenarios.service_down Scenarios.url
    PNone PNone PNone PNone Scenarios.s0
  = (Raises (UnboundLocalError "result"), Scenarios.s0,
     [EvGetProperty 10000 PORT_PROPERTY; EvSocket; EvSetTimeout 35;
      EvConnect SERVICE_HOST 45123]).
Proof.
  apply (service_exception_escapes Scenarios.service_down Scenarios.url
           PNone PNone PNone PNone Scenarios.s0 Scenarios.refused
           (Frame Scenarios.s0 None)).
  vm_compute. reflexivity.
Defined.

(** C2 (code bug).  The claim is that a port property holding non-empty
    text that is no number yields [{'error': ...}].  In the code the
    [ValueError] of [int(port_str)] reaches the first [except] clause and
    the call raises [UnboundLocalError], after the property lookup and
    before any socket call. *)
Theorem non_numeric_port_escapes (w : world) getProperty port_str url params
    headers batch_payload dns_settings (s : state) :
  xbmcgui w = Some getProperty →
  getProperty 10000 PORT_PROPERTY = Returns port_str →
  port_str ≠ "" →
  py_int port_str = None →
  load_info_from_service w url params headers batch_payload dns_settings s
    = (Raises (UnboundLocalError "result"), s,
       [EvGetProperty 10000 PORT_PROPERTY]).
Proof.
  intros Hgui Hprop Hne Hint. rewrite load_info_from_service_eq.
  unfold service_body, service_io, get_service_port, bind, emit, lift.
  rewrite Hgui, Hprop. apply String.eqb_neq in Hne. rewrite Hne. simpl.
  by rewrite Hint.
Qed.

Lemma non_numeric_port_escapes_witness :
  load_info_from_service Scenarios.bad_port Scenarios.url
    PNone PNone PNone PNone Scenarios.s0
  = (Raises (UnboundLocalError "result"), Scenarios.s0,
     [EvGetProperty 10000 PORT_PROPERTY]).
Proof.
  eapply (non_numeric_port_escapes Scenarios.bad_port _ "abc");
    [reflexivity | reflexivity | discriminate | reflexivity].
Defined.

(** ** C3: unwrapping a one-element answer *)

(** C3, as stated, fails when a batch payload is supplied but empty:
    [batch_payload=[]] is not [None], the answer [[item]] is a sequence of
    length one, and the call returns [item], not the sequence. *)
Lemma unwrap_counterexample :
  PList [] ≠ PNone
  ∧ json_loads (Scenarios.answering ("[" ++ Scenarios.item_text ++ "]")
                                    (Raises Scenarios.connection_error))
               ("[" ++ Scenarios.item_text ++ "]")
    = Returns (PList [Scenarios.item])
  ∧ (load_info_from_service
       (Scenarios.answering ("[" ++ Scenarios.item_text ++ "]")
                            (Raises Scenarios.connection_error))
       Scenarios.url PNone PNone (PList []) PNone Scenarios.s0).1.1
    = Returns Scenarios.item
  ∧ Scenarios.item ≠ PList [Scenarios.item].
Proof. split_and!; [discriminate | reflexivity | reflexivity | discriminate]. Qed.

(** C3 (amended).  Once the answer is read and decodes to [r]: when
    [batch_payload] is absent or falsy ([None], an empty list) and [r] is a
    sequence of length exactly one, the call returns its sole element; in
    every other case (a truthy [batch_payload], a sequence of another
    length, a value that is no sequence) it returns [r] unchanged. *)
Theorem unwrap_single_result (w : world) url params headers batch_payload
    dns_settings (s : state) response_data f t r :
  service_io w url params headers batch_payload dns_settings (Frame s None)
    = (Returns (inr response_data), f, t) →
  response_data ≠ "" →
  json_loads w response_data = Returns r →
  ∃ v,
    load_info_from_service w url params headers batch_payload dns_settings s
      = (Returns v, s, t)
    ∧ (truthy batch_payload = false → ∀ x, r = PList [x] → v = x)
    ∧ (truthy batch_payload = true ∨ (∀ x, r ≠ PList [x]) → v = r).
Proof.
  intros Hio Hne Hjson. exists (unwrap batch_payload r).
  rewrite (run_decode _ _ _ _ _ _ _ _ _ _ Hio).
  apply String.eqb_neq in Hne. rewrite Hne, Hjson. split_and!; [done | |].
  - intros Hb x ->. unfold unwrap. by rewrite Hb.
  - unfold unwrap. intros [-> | Hr]; [done|].
    destruct (negb _); [|done].
    destruct r as [| | | | |[|x [|y l]]|]; try done. by destruct (Hr x).
Qed.

Lemma unwrap_single_result_witness :
  load_info_from_service
    (Scenarios.answering ("[" ++ Scenarios.item_text ++ "]")
                         (Raises Scenarios.connection_error))
    Scenarios.url PNone PNone PNone PNone Scenarios.s0
  = (Returns Scenarios.item, Scenarios.s0,
     [EvSocket; EvSetTimeout 35; EvConnect SERVICE_HOST 56789;
      EvSendall Scenarios.request_text; EvRecv 4096; EvRecv 4096; EvRecv 4096;
      EvClose]).
Proof.
  destruct (unwrap_single_result
              (Scenarios.answering ("[" ++ Scenarios.item_text ++ "]")
                                   (Raises Scenarios.connection_error))
              Scenarios.url PNone PNone PNone PNone Scenarios.s0
              ("[" ++ Scenarios.item_text ++ "]") (Frame Scenarios.s0 None)
              [EvSocket; EvSetTimeout 35; EvConnect SERVICE_HOST 56789;
               EvSendall Scenarios.request_text; EvRecv 4096; EvRecv 4096;
               EvRecv 4096; EvClose]
              (PList [Scenarios.item]))
    as (v & Hrun & Hone & _);
    [vm_compute; reflexivity | discriminate | reflexivity |].
  rewrite Hrun. by rewrite (Hone eq_refl Scenarios.item eq_refl).
Defined.

(** ** C5: port discovery *)

Lemma connect_attempted (w : world) url params headers batch_payload
    dns_settings (s : state) :
  xbmcgui w = None → socket_socket w = None →
  ∃ rest,
    (load_info_from_service w url params headers batch_payload dns_settings
                            s).2
    = EvSocket :: EvSetTimeout 35 :: EvConnect SERVICE_HOST 56789 :: rest.
Proof.
  intros Hgui Hsock. rewrite load_info_from_service_eq.
  unfold service_body, service_io, get_service_port. rewrite Hgui.
  unfold open_socket, bind, ret, emit, check, in_frame, gets.
  rewrite Hsock. simpl.
  destruct (sock_connect w SERVICE_HOST 56789); simpl; [by eexists|].
  destruct (send_and_read _ _ _) as [[[response_data|e] s1] t1]; simpl;
    [|by eexists].
  destruct (decode_response _ _ _ _) as [[o f] t2]. simpl. by eexists.
Qed.

(** C5.  With a property store whose port property is empty, the call
    returns the port-discovery error after the lookup alone: no socket is
    created, nothing is connected.  With a property store, a connection only
    ever goes to the number the non-empty property holds; the fallback
    56789 is where a connection goes when there is no property store, and
    then it is attempted as soon as the socket exists. *)
Theorem port_discovery (w : world) url params headers batch_payload
    dns_settings (s : state) :
  (∀ getProperty, xbmcgui w = Some getProperty →
     (getProperty 10000 PORT_PROPERTY = Returns "" →
      load_info_from_service w url params headers batch_payload dns_settings s
      = (Returns (error_dict (PStr "Service port not found in Window Property")),
         s, [EvGetProperty 10000 PORT_PROPERTY])
      ∧ existsb is_socket_call
          (load_info_from_service w url params headers batch_payload
                                  dns_settings s).2 = false)
     ∧ (∀ host port,
          EvConnect host port ∈
            (load_info_from_service w url params headers batch_payload
                                    dns_settings s).2 →
          ∃ port_str, getProperty 10000 PORT_PROPERTY = Returns port_str
                      ∧ port_str ≠ "" ∧ py_int port_str = Some port))
  ∧ (xbmcgui w = None →
     (∀ host port,
        EvConnect host port ∈
          (load_info_from_service w url params headers batch_payload
                                  dns_settings s).2 →
        port = 56789)
     ∧ (socket_socket w = None →
        EvConnect SERVICE_HOST 56789 ∈
          (load_info_from_service w url params headers batch_payload
                                  dns_settings s).2)).
Proof.
  assert (Hconnect : ∀ host port,
            EvConnect host port ∈
              (load_info_from_service w url params headers batch_payload
                                      dns_settings s).2 →
            discovered_port w port).
  { intros host port Hin.
    destruct (load_info_from_service _ _ _ _ _ _ _) as [[o s'] t] eqn:Erun.
    apply load_info_from_service_events in Erun as [_ Ht].
    rewrite Forall_forall in Ht. by destruct (Ht _ Hin). }
  split.
  - intros getProperty Hgui. split.
    + intros Hprop. clear Hconnect. rewrite load_info_from_service_eq.
      unfold service_body, service_io, get_service_port, bind, emit, lift.
      by rewrite Hgui, Hprop.
    + intros host port Hin. apply Hconnect in Hin.
      unfold discovered_port in Hin. by rewrite Hgui in Hin.
  - intros Hgui. split.
    + intros host port Hin. apply Hconnect in Hin.
      unfold discovered_port in Hin. by rewrite Hgui in Hin.
    + intros Hsock.
      destruct (connect_attempted w url params headers batch_payload
                  dns_settings s Hgui Hsock) as [rest ->].
      set_solver.
Qed.

Lemma port_discovery_witness :
  load_info_from_service Scenarios.no_port Scenarios.url
    PNone PNone PNone PNone Scenarios.s0
  = (Returns (error_dict (PStr "Service port not found in Window Property")),
     Scenarios.s0, [EvGetProperty 10000 PORT_PROPERTY])
  ∧ EvConnect SERVICE_HOST 56789 ∈
      (load_info_from_service Scenarios.silent Scenarios.url
         PNone PNone PNone PNone Scenarios.s0).2.
Proof.
  split.
  - eapply (proj1 (proj1 (proj1 (port_discovery Scenarios.no_port
                     Scenarios.url PNone PNone PNone PNone Scenarios.s0)
                     _ eq_refl) eq_refl)).
  - apply (proj2 (port_discovery Scenarios.silent Scenarios.url
                    PNone PNone PNone PNone Scenarios.s0));
      reflexivity.
Defined.

(** ** C9: the empty answer *)

(** C9.  When the read loop ends with nothing read, the call returns
    [{'error': 'Empty response from service'}], whatever the decoder would
    make of the empty text: the decoder is not asked.  An answer that is not
    empty and that the decoder rejects never gives that result (the call
    raises, see C1), and the result the clause of lines 127-130 builds for
    a failure is a different one too. *)
Theorem empty_response_error (w : world) url params headers batch_payload
    dns_settings (s : state) response_data f t :
  service_io w url params headers batch_payload dns_settings (Frame s None)
    = (Returns (inr response_data), f, t) →
  (response_data = "" →
   load_info_from_service w url params headers batch_payload dns_settings s
   = (Returns (error_dict (PStr "Empty response from service")), s, t))
  ∧ (response_data ≠ "" → ∀ e, json_loads w response_data = Raises e →
     (load_info_from_service w url params headers batch_payload dns_settings
                             s).1.1
     ≠ Returns (error_dict (PStr "Empty response from service")))
  ∧ (∀ e f', (logging_handler w e f').1.1
             ≠ Returns (error_dict (PStr "Empty response from service"))).
Proof.
  intros Hio. rewrite (run_decode _ _ _ _ _ _ _ _ _ _ Hio). split_and!.
  - by intros ->.
  - intros Hne e He. apply String.eqb_neq in Hne. by rewrite Hne, He.
  - intros e f'. unfold logging_handler, bind, emit, ret.
    destruct (xbmc w); simpl; intros [= H%error_dict_inj]; discriminate.
Qed.

Lemma empty_response_error_witness :
  load_info_from_service Scenarios.silent Scenarios.url
    PNone PNone PNone PNone Scenarios.s0
  = (Returns (error_dict (PStr "Empty response from service")), Scenarios.s0,
     [EvSocket; EvSetTimeout 35; EvConnect SERVICE_HOST 56789;
      EvSendall Scenarios.request_text; EvRecv 4096; EvClose]).
Proof.
  refine (proj1 (empty_response_error Scenarios.silent Scenarios.url
                   PNone PNone PNone PNone Scenarios.s0 ""
                   (Frame Scenarios.s0 None) _ _) eq_refl).
  vm_compute. reflexivity.
Defined.

(** ** The facade: what it calls *)

Lemma py_or_dict (d : gmap string pyval) : py_or (PDict d) (PDict ∅) = PDict d.
Proof.
  unfold py_or. simpl. case_bool_decide as Hd; simpl; [by rewrite Hd | done].
Qed.

(** The payload built for the call [load_info] makes. *)
Lemma build_request_data_single (url : string) (params : pyval) (s : state) :
  build_request_data url params (PDict (HEADERS s)) PNone PNone
                     (DNS_SETTINGS s)
  = single_request url params s.
Proof. unfold build_request_data, single_request. by rewrite py_or_dict. Qed.

Lemma log_request_events (I : state → Prop) (P : event → Prop) (w : world)
    url params :
  (xbmc w = true → ∀ msg level, P (EvLog msg level)) →
  triple I P (log_request w url params) (fun _ => True).
Proof.
  intros HP. unfold log_request. destruct (xbmc w) eqn:Hlog.
  - eapply triple_bind with (Q := fun _ => True).
    { destruct (truthy params).
      - eapply triple_bind; [apply triple_lift|]; intros q _.
        triple_leaf.
      - triple_leaf. }
    intros log_url _.
    eapply triple_bind; [by apply triple_emit, HP|]; intros _ _.
    eapply triple_bind; [apply triple_gets|]; intros H _.
    destruct (truthy (PDict H)).
    + by apply triple_emit, HP.
    + triple_leaf.
  - triple_leaf.
Qed.

Lemma load_info_from_service_triple (w : world) url params (s0 : state) :
  triple (fun s => s = s0) (facade_event w url params s0)
    (load_info_from_service w url params (PDict (HEADERS s0)) PNone PNone)
    (fun _ => True).
Proof.
  intros s o s' t -> Erun.
  apply load_info_from_service_events in Erun as [-> Ht].
  split_and!; [done | | done].
  rewrite build_request_data_single in Ht.
  eapply Forall_impl; [exact Ht|]. by intros [].
Qed.

Lemma service_success_events (w : world) url params resp_type service_result
    (s0 : state) :
  triple (fun s => s = s0) (facade_event w url params s0)
    (service_success w resp_type service_result) (fun _ => True).
Proof.
  unfold service_success. destruct (String.eqb _ _).
  - eapply triple_bind; [apply triple_lift|]; intros j _.
    destruct (truthy j).
    + triple_leaf.
    + eapply triple_bind; [apply triple_lift|]; intros text _.
      triple_leaf.
  - triple_leaf.
Qed.

Lemma direct_request_events (w : world) url params resp_type (s0 : state) :
  triple (fun s => s = s0) (facade_event w url params s0)
    (direct_request w url params resp_type) (fun _ => True).
Proof.
  unfold direct_request.
  eapply triple_bind; [apply triple_gets|]; intros H (s & -> & ->).
  eapply triple_bind; [by apply triple_emit|]; intros _ _.
  eapply triple_bind; [apply triple_lift|]; intros resp _.
  eapply triple_bind; [apply triple_check|]; intros _ _.
  destruct (String.eqb _ _).
  - triple_leaf.
  - triple_leaf.
Qed.

Lemma service_fallback_events (w : world) url params dflt resp_type
    service_result (s0 : state) :
  triple (fun s => s = s0) (facade_event w url params s0)
    (service_fallback w url params dflt resp_type service_result)
    (fun _ => True).
Proof.
  unfold service_fallback.
  eapply triple_bind with (Q := fun _ => True).
  { destruct (xbmc w) eqn:Hlog.
    - eapply triple_bind; [apply triple_lift|]; intros err _.
      by apply triple_emit.
    - triple_leaf. }
  intros _ _. apply triple_try_except; [apply direct_request_events|].
  constructor; [|constructor]. intros e. simpl. unfold direct_failure.
  destruct (negb _); triple_leaf.
Qed.

(** [load_info] leaves the globals alone and makes only the calls of
    [facade_event]. *)
Lemma load_info_events (w : world) url params dflt resp_type (s : state)
    o s' t :
  load_info w url params dflt resp_type s = (o, s', t) →
  s' = s ∧ Forall (facade_event w url params s) t.
Proof.
  intros Erun.
  assert (Ht : triple (fun s' => s' = s) (facade_event w url params s)
                 (load_info w url params dflt resp_type) (fun _ => True)).
  { unfold load_info.
    eapply triple_bind; [by apply log_request_events|]; intros _ _.
    eapply triple_bind; [apply triple_gets|]; intros H (s1 & -> & ->).
    eapply triple_bind; [apply load_info_from_service_triple|].
    intros service_result _.
    eapply triple_bind; [apply triple_lift|]; intros has_error _.
    destruct (negb has_error).
    - apply service_success_events.
    - apply service_fallback_events. }
  destruct (Ht _ _ _ _ eq_refl Erun) as (? & ? & _). done.
Qed.

(** The run of [load_info] once the request is logged and the service has
    answered [service_result]. *)
Lemma load_info_after_service (w : world) url params dflt resp_type (s : state)
    t1 t2 service_result :
  log_request w url params s = (Returns tt, s, t1) →
  load_info_from_service w url params (PDict (HEADERS s)) PNone PNone s
    = (Returns service_result, s, t2) →
  load_info w url params dflt resp_type s =
  let '(o, s', t3) :=
    (do has_error <- lift (py_contains "error" service_result);
     if negb has_error then service_success w resp_type service_result
     else service_fallback w url params dflt resp_type service_result) s in
  (o, s', (t1 ++ t2 ++ t3)%list).
Proof.
  intros Hlog Hsvc. unfold load_info.
  unfold bind at 1. rewrite Hlog.
  unfold bind at 1. unfold gets at 1. unfold bind at 1. rewrite Hsvc.
  destruct (bind _ _ s) as [[o s'] t3]. by rewrite app_nil_l.
Qed.

Lemma service_success_run (w : world) resp_type (d : gmap string pyval)
    (s : state) :
  service_success w resp_type (PDict d) s =
  (if String.eqb (py_lower resp_type) "json" then
     let j := match d !! "json" with Some x => x | None => PNone end in
     if truthy j then Returns j
     else py_json_loads (json_loads w)
            (match d !! "text" with Some x => x | None => PStr "{}" end)
   else Returns (match d !! "text" with Some x => x | None => PNone end),
   s, []).
Proof.
  unfold service_success, bind, lift, ret. simpl.
  destruct (String.eqb _ _); [|done]. by destruct (truthy _).
Qed.

(** ** C4 and C10: the service answered *)

(** C4, as stated, fails when the ['json'] field is present but falsy: the
    service result [{'json': []}] has no ['error'] key and has the field,
    yet [load_info] returns the parse of ['{}'], an empty dict, not the
    field. *)
Lemma json_field_counterexample :
  (load_info_from_service
     (Scenarios.answering ("[" ++ Scenarios.empty_json_text ++ "]")
                          (Raises Scenarios.connection_error))
     Scenarios.url PNone (PDict ∅) PNone PNone Scenarios.s0).1.1
  = Returns (PDict {["json" := PList []]})
  ∧ ({["json" := PList []]} : gmap string pyval) !! "error" = None
  ∧ ({["json" := PList []]} : gmap string pyval) !! "json" = Some (PList [])
  ∧ (load_info
       (Scenarios.answering ("[" ++ Scenarios.empty_json_text ++ "]")
                            (Raises Scenarios.connection_error))
       Scenarios.url PNone PNone "json" Scenarios.s0).1.1
    = Returns (PDict ∅)
  ∧ PDict ∅ ≠ PList [].
Proof. split_and!; [reflexivity .. | discriminate]. Qed.

(** C4 (amended).  When the service result is a mapping without an
    ['error'] key: for a [resp_type] equal to ['json'] up to case,
    [load_info] returns the ['json'] field when it is present and truthy,
    and otherwise (absent, or falsy: [None], [[]], [{}], [0], ['']) gives
    what [json.loads] gives for the ['text'] field, ['{}'] standing in for
    an absent one; for any other [resp_type] it returns the ['text'] field
    ([None] when absent). *)
Theorem service_success_result (w : world) url params dflt resp_type
    (s : state) t1 t2 (d : gmap string pyval) :
  log_request w url params s = (Returns tt, s, t1) →
  load_info_from_service w url params (PDict (HEADERS s)) PNone PNone s
    = (Returns (PDict d), s, t2) →
  d !! "error" = None →
  (String.eqb (py_lower resp_type) "json" = true →
   (∀ j, d !! "json" = Some j → truthy j = true →
      load_info w url params dflt resp_type s
      = (Returns j, s, (t1 ++ t2)%list))
   ∧ (d !! "json" = None ∨ (∃ j, d !! "json" = Some j ∧ truthy j = false) →
      load_info w url params dflt resp_type s
      = (py_json_loads (json_loads w)
           (match d !! "text" with Some x => x | None => PStr "{}" end),
         s, (t1 ++ t2)%list)))
  ∧ (String.eqb (py_lower resp_type) "json" = false →
     load_info w url params dflt resp_type s
     = (Returns (match d !! "text" with Some x => x | None => PNone end),
        s, (t1 ++ t2)%list)).
Proof.
  intros Hlog Hsvc Herr.
  rewrite (load_info_after_service _ _ _ _ _ _ _ _ _ Hlog Hsvc).
  unfold bind, lift, py_contains. rewrite Herr.
  rewrite bool_decide_eq_false_2 by (by intros [? ?]). simpl.
  rewrite service_success_run, !app_nil_r.
  split; [intros ->; split | by intros ->].
  - intros j -> Hj. simpl. by rewrite Hj.
  - intros [-> | (j & -> & Hj)]; simpl; [done | by rewrite Hj].
Qed.

Lemma service_success_result_witness :
  load_info
    (Scenarios.answering ("[" ++ Scenarios.item_text ++ "]")
                         (Raises Scenarios.connection_error))
    Scenarios.url PNone PNone "JSON" Scenarios.s0
  = (Returns (PDict ∅), Scenarios.s0,
     [EvSocket; EvSetTimeout 35; EvConnect SERVICE_HOST 56789;
      EvSendall Scenarios.request_text; EvRecv 4096; EvRecv 4096; EvRecv 4096;
      EvClose]).
Proof.
  refine (proj2 (proj1 (service_success_result
            (Scenarios.answering ("[" ++ Scenarios.item_text ++ "]")
                                 (Raises Scenarios.connection_error))
            Scenarios.url PNone PNone "JSON" Scenarios.s0 [] _
            (<["status" := PInt 200]> {["text" := PStr "{}"]})
            eq_refl _ eq_refl) eq_refl) (or_introl eq_refl)).
  vm_compute. reflexivity.
Defined.

(** C10.  When the service result is a mapping with neither an ['error']
    key nor a ['text'] key and [resp_type] is not ['json'] up to case,
    [load_info] returns [None], whatever [default] is. *)
Theorem missing_text_gives_none (w : world) url params dflt resp_type
    (s : state) t1 t2 (d : gmap string pyval) :
  log_request w url params s = (Returns tt, s, t1) →
  load_info_from_service w url params (PDict (HEADERS s)) PNone PNone s
    = (Returns (PDict d), s, t2) →
  d !! "error" = None →
  d !! "text" = None →
  py_lower resp_type ≠ "json" →
  load_info w url params dflt resp_type s = (Returns PNone, s, (t1 ++ t2)%list).
Proof.
  intros Hlog Hsvc Herr Htext Hty.
  rewrite (load_info_after_service _ _ _ _ _ _ _ _ _ Hlog Hsvc).
  unfold bind, lift, py_contains. rewrite Herr.
  rewrite bool_decide_eq_false_2 by (by intros [? ?]). simpl.
  rewrite service_success_run, !app_nil_r.
  apply String.eqb_neq in Hty. by rewrite Hty, Htext.
Qed.

Lemma missing_text_gives_none_witness :
  load_info
    (Scenarios.answering ("[" ++ Scenarios.no_text_text ++ "]")
                         (Raises Scenarios.connection_error))
    Scenarios.url PNone (PInt 7) "text" Scenarios.s0
  = (Returns PNone, Scenarios.s0,
     [EvSocket; EvSetTimeout 35; EvConnect SERVICE_HOST 56789;
      EvSendall Scenarios.request_text; EvRecv 4096; EvRecv 4096; EvRecv 4096;
      EvClose]).
Proof.
  refine (missing_text_gives_none
            (Scenarios.answering ("[" ++ Scenarios.no_text_text ++ "]")
                                 (Raises Scenarios.connection_error))
            Scenarios.url PNone (PInt 7) "text" Scenarios.s0 [] _
            {["status" := PInt 204]} eq_refl _ eq_refl eq_refl _).
  - vm_compute. reflexivity.
  - discriminate.
Defined.

(** ** C6 and C7: the service reported an error *)

Lemma direct_request_run (w : world) url params resp_type (s : state) :
  direct_request w url params resp_type s =
  (match requests_get w url params (HEADERS s) 30 with
   | Returns resp =>
       match raise_for_status resp with
       | Some e => Raises e
       | None =>
           if String.eqb (py_lower resp_type) "json" then resp_json resp
           else Returns (PStr (resp_text resp))
       end
   | Raises e => Raises e
   end, s, [EvGet url params (HEADERS s) 30]).
Proof.
  unfold direct_request, bind, gets, emit, lift, check, ret, raise. simpl.
  destruct (requests_get _ _ _ _ _) as [resp|e]; [|done].
  destruct (raise_for_status resp) as [e|]; [done|].
  destruct (String.eqb _ _); [|done]. by destruct (resp_json resp).
Qed.

(** The warning of line 173, when [xbmc] is there. *)
Lemma service_fallback_run (w : world) url params dflt resp_type
    (d : gmap string pyval) (s : state) :
  is_Some (d !! "error") →
  ∃ warning,
    Forall (fun ev => is_get ev = false) warning
    ∧ service_fallback w url params dflt resp_type (PDict d) s =
      (match (direct_request w url params resp_type s).1.1 with
       | Returns v => Returns v
       | Raises e =>
           Returns (if is_None dflt
                    then error_dict (PStr ("Direct request failed: "
                                           ++ exn_str e))
                    else dflt)
       end, s, (warning ++ [EvGet url params (HEADERS s) 30])%list).
Proof.
  intros [err Herr]. unfold service_fallback.
  exists (if xbmc w
          then [EvLog ("[TMDB Scraper] -----Service unavailable ("
                       ++ py_str w err
                       ++ "), falling back to direct request") LOGWARNING]
          else []).
  split; [destruct (xbmc w); repeat constructor|].
  unfold bind at 1.
  assert (Hwarn :
    (if xbmc w
     then do err <- lift (py_getitem (PDict d) "error");
          emit (EvLog ("[TMDB Scraper] -----Service unavailable ("
                       ++ py_str w err
                       ++ "), falling back to direct request") LOGWARNING)
     else ret tt) s
    = (Returns tt, s,
       if xbmc w
       then [EvLog ("[TMDB Scraper] -----Service unavailable ("
                    ++ py_str w err
                    ++ "), falling back to direct request") LOGWARNING]
       else [])).
  { destruct (xbmc w); [|done]. unfold bind, lift, emit. simpl.
    by rewrite Herr. }
  rewrite Hwarn. unfold try_except. rewrite direct_request_run. simpl.
  unfold direct_failure, ret.
  destruct (requests_get _ _ _ _ _) as [resp|e]; [|by destruct dflt].
  destruct (raise_for_status resp) as [e|]; [by destruct dflt|].
  destruct (String.eqb _ _); [|done].
  destruct (resp_json resp); [done | by destruct dflt].
Qed.

Lemma filter_is_get_nil (t : list event) :
  Forall (fun ev => is_get ev = false) t → List.filter is_get t = [].
Proof.
  induction 1 as [|ev t Hev _ IH]; [done|]. simpl. by rewrite Hev.
Qed.

Lemma service_event_no_get (w : world) request_data t :
  Forall (service_event w request_data) t →
  Forall (fun ev => is_get ev = false) t.
Proof. intros Ht. eapply Forall_impl; [exact Ht|]. by intros []. Qed.

Lemma load_info_fallback (w : world) url params dflt resp_type (s : state)
    t1 t2 (d : gmap string pyval) :
  log_request w url params s = (Returns tt, s, t1) →
  load_info_from_service w url params (PDict (HEADERS s)) PNone PNone s
    = (Returns (PDict d), s, t2) →
  is_Some (d !! "error") →
  ∃ warning,
    Forall (fun ev => is_get ev = false) (t1 ++ t2 ++ warning)%list
    ∧ load_info w url params dflt resp_type s =
      (match (direct_request w url params resp_type s).1.1 with
       | Returns v => Returns v
       | Raises e =>
           Returns (if is_None dflt
                    then error_dict (PStr ("Direct request failed: "
                                           ++ exn_str e))
                    else dflt)
       end, s,
       ((t1 ++ t2 ++ warning) ++ [EvGet url params (HEADERS s) 30])%list).
Proof.
  intros Hlog Hsvc Herr.
  destruct (service_fallback_run w url params dflt resp_type d s Herr)
    as (warning & Hwarning & Hrun).
  exists warning. split.
  - rewrite !Forall_app. split_and!; [| |done].
    + by destruct (log_request_events (fun _ => True)
                     (fun ev => is_get ev = false) w url params
                     (fun _ _ _ => eq_refl) _ _ _ _ I Hlog) as (_ & ? & _).
    + apply load_info_from_service_events in Hsvc as [_ Ht].
      by eapply service_event_no_get.
  - rewrite (load_info_after_service _ _ _ _ _ _ _ _ _ Hlog Hsvc).
    unfold bind, lift, py_contains.
    rewrite bool_decide_eq_true_2 by done. simpl. rewrite Hrun.
    by rewrite !app_assoc.
Qed.

(** C6.  When the service result is a mapping with an ['error'] key and the
    direct request raises (in [requests.get], in [raise_for_status] or in
    [json()]), [load_info] raises nothing: it returns [default] when that
    is not [None], and otherwise [{'error': message}] with a message that
    is not empty. *)
Theorem direct_failure_result (w : world) url params dflt resp_type
    (s : state) t1 t2 (d : gmap string pyval) e s' t3 :
  log_request w url params s = (Returns tt, s, t1) →
  load_info_from_service w url params (PDict (HEADERS s)) PNone PNone s
    = (Returns (PDict d), s, t2) →
  is_Some (d !! "error") →
  direct_request w url params resp_type s = (Raises e, s', t3) →
  ∃ v t,
    load_info w url params dflt resp_type s = (Returns v, s, t)
    ∧ (dflt ≠ PNone → v = dflt)
    ∧ (dflt = PNone → ∃ msg, v = error_dict (PStr msg) ∧ msg ≠ "").
Proof.
  intros Hlog Hsvc Herr Hdirect.
  destruct (load_info_fallback w url params dflt resp_type s t1 t2 d
              Hlog Hsvc Herr) as (warning & _ & ->).
  rewrite Hdirect. simpl. eexists _, _. split_and!; [reflexivity | |].
  - by destruct dflt.
  - intros ->. simpl. by eexists.
Qed.

(** Both the service and the direct endpoint fail: with the default [[]]
    the caller gets [[]], without one an error object. *)
Lemma direct_failure_result_witness :
  (load_info
     (Scenarios.answering_kodi ("[" ++ Scenarios.failed_text ++ "]")
                               (Raises Scenarios.connection_error))
     Scenarios.url PNone (PList []) "json" Scenarios.s0).1.1
  = Returns (PList [])
  ∧ (load_info
       (Scenarios.answering_kodi ("[" ++ Scenarios.failed_text ++ "]")
                                 (Raises Scenarios.connection_error))
       Scenarios.url PNone PNone "json" Scenarios.s0).1.1
    = Returns (error_dict (PStr "Direct request failed: Max retries exceeded")).
Proof.
  split.
  - destruct (direct_failure_result
                (Scenarios.answering_kodi ("[" ++ Scenarios.failed_text ++ "]")
                                          (Raises Scenarios.connection_error))
                Scenarios.url PNone (PList []) "json" Scenarios.s0
                [EvLog ("Calling URL " ++ dquote ++ Scenarios.url ++ dquote)
                       LOGDEBUG]
                [EvGetProperty 10000 PORT_PROPERTY; EvSocket; EvSetTimeout 35;
                 EvConnect SERVICE_HOST 45123; EvSendall Scenarios.request_text;
                 EvRecv 4096; EvRecv 4096; EvClose]
                {["error" := PStr "x"]} Scenarios.connection_error
                Scenarios.s0
                [EvGet Scenarios.url PNone ∅ 30])
      as (v & t & Hrun & Hdflt & _);
      [vm_compute; reflexivity | vm_compute; reflexivity | by eexists
      | vm_compute; reflexivity |].
    rewrite Hrun. simpl. f_equal. by apply Hdflt.
  - vm_compute. reflexivity.
Defined.

(** C7.  When the service result is a mapping with an ['error'] key,
    [load_info] makes exactly one [requests.get], for [url] with [params],
    the global headers and the timeout 30.  A response that
    [raise_for_status()] rejects counts as a failure of the request (the
    rule on the status code is that of [requests]); one that it accepts is
    answered with [json()] when [resp_type] is ['json'] up to case and with
    [text] otherwise. *)
Theorem direct_request_once (w : world) url params dflt resp_type (s : state)
    t1 t2 (d : gmap string pyval) :
  log_request w url params s = (Returns tt, s, t1) →
  load_info_from_service w url params (PDict (HEADERS s)) PNone PNone s
    = (Returns (PDict d), s, t2) →
  is_Some (d !! "error") →
  List.filter is_get (load_info w url params dflt resp_type s).2
    = [EvGet url params (HEADERS s) 30]
  ∧ ∀ resp, requests_get w url params (HEADERS s) 30 = Returns resp →
      (∀ e, raise_for_status resp = Some e →
         (load_info w url params dflt resp_type s).1.1
         = Returns (if is_None dflt
                    then error_dict (PStr ("Direct request failed: "
                                           ++ exn_str e))
                    else dflt))
      ∧ (raise_for_status resp = None →
         if String.eqb (py_lower resp_type) "json"
         then ∀ v, resp_json resp = Returns v →
                (load_info w url params dflt resp_type s).1.1 = Returns v
         else (load_info w url params dflt resp_type s).1.1
              = Returns (PStr (resp_text resp))).
Proof.
  intros Hlog Hsvc Herr.
  destruct (load_info_fallback w url params dflt resp_type s t1 t2 d
              Hlog Hsvc Herr) as (warning & Hnoget & ->).
  rewrite direct_request_run. simpl. split.
  - rewrite List.filter_app, (filter_is_get_nil _ Hnoget). done.
  - intros resp ->. split.
    + by intros e ->.
    + intros ->. destruct (String.eqb _ _); [by intros v ->|done].
Qed.

(** The service reports an error and the direct endpoint answers 200 with
    the body [{"b": 2}]. *)
Lemma direct_request_once_witness :
  List.filter is_get
    (load_info
       (Scenarios.answering_kodi ("[" ++ Scenarios.failed_text ++ "]")
                                 (Returns Scenarios.ok_response))
       Scenarios.url PNone PNone "json" Scenarios.s0).2
  = [EvGet Scenarios.url PNone ∅ 30]
  ∧ (load_info
       (Scenarios.answering_kodi ("[" ++ Scenarios.failed_text ++ "]")
                                 (Returns Scenarios.ok_response))
       Scenarios.url PNone PNone "json" Scenarios.s0).1.1
    = Returns (PDict {["b" := PInt 2]}).
Proof.
  destruct (direct_request_once
              (Scenarios.answering_kodi ("[" ++ Scenarios.failed_text ++ "]")
                                        (Returns Scenarios.ok_response))
              Scenarios.url PNone PNone "json" Scenarios.s0
              [EvLog ("Calling URL " ++ dquote ++ Scenarios.url ++ dquote)
                     LOGDEBUG]
              [EvGetProperty 10000 PORT_PROPERTY; EvSocket; EvSetTimeout 35;
               EvConnect SERVICE_HOST 45123; EvSendall Scenarios.request_text;
               EvRecv 4096; EvRecv 4096; EvClose]
              {["error" := PStr "x"]})
    as [Honce Hresp];
    [vm_compute; reflexivity | vm_compute; reflexivity | by eexists |].
  split; [exact Honce|].
  destruct (Hresp Scenarios.ok_response eq_refl) as [_ Hok].
  exact (Hok eq_refl _ eq_refl).
Defined.

(** ** C8: the configuration setters *)

Lemma dict_update_empty (m : gmap string pyval) : dict_update ∅ m = m.
Proof. unfold dict_update. apply (right_id_L ∅ (∪)). Qed.

(** ** Further properties: the setters *)

(** X1.  The setters compose as assignments do: of two [set_headers] the
    later one decides, [set_headers] and [set_dns_settings] do not touch
    each other's global and so commute, and [set_dns_settings(None)], like
    [set_dns_settings({})], leaves the DNS settings empty and the headers
    as they were. *)
Theorem setters_compose (h1 h2 d : gmap string pyval) (s : state) :
  (set_headers h2 (set_headers h1 s).1.2).1.2 = (set_headers h2 s).1.2
  ∧ (set_dns_settings (Some d) (set_headers h1 s).1.2).1.2
    = (set_headers h1 (set_dns_settings (Some d) s).1.2).1.2
  ∧ (set_dns_settings (Some d) (set_headers h1 s).1.2).1.2 = State h1 d
  ∧ (set_dns_settings None s).1.2 = State (HEADERS s) ∅
  ∧ (set_dns_settings (Some ∅) s).1.2 = State (HEADERS s) ∅.
Proof.
  assert (Hdns : ∀ s', (set_dns_settings (Some d) s').1.2 = State (HEADERS s') d).
  { intros s'. unfold set_dns_settings. simpl. case_bool_decide as Hd; simpl.
    - by rewrite Hd.
    - by rewrite dict_update_empty. }
  rewrite !Hdns. unfold set_headers. simpl. rewrite !dict_update_empty.
  split_and!; done.
Qed.

(** ** Further properties: the read loop *)

Lemma string_app_assoc (a b c : string) : (a ++ b) ++ c = a ++ (b ++ c).
Proof.
  induction a as [|x a IH]; [done|].
  change (String x ((a ++ b) ++ c) = String x (a ++ (b ++ c))). by f_equal.
Qed.

Lemma string_app_empty_r (a : string) : a ++ "" = a.
Proof.
  induction a as [|x a IH]; [done|].
  change (String x (a ++ "") = String x a). by f_equal.
Qed.

(** One turn of the loop. *)
Lemma recv_loop_step (answers : list (outcome string)) response_data
    (s : state) :
  recv_loop answers response_data s =
  match answers with
  | [] => (Returns response_data, s, [EvRecv 4096])
  | Returns chunk :: answers' =>
      if negb (String.eqb chunk "") then
        let '(o, s', t) := recv_loop answers' (response_data ++ chunk) s in
        (o, s', EvRecv 4096 :: t)
      else (Returns response_data, s, [EvRecv 4096])
  | Raises e :: _ => (Raises e, s, [EvRecv 4096])
  end.
Proof.
  destruct answers as [|[chunk|e] answers']; simpl; unfold bind, emit; simpl;
    try done.
  destruct (negb _); [|done].
  by destruct (recv_loop answers' _ s) as [[o s'] t].
Qed.

(** X2.  The read loop returns what was accumulated before followed by
    what the peer sent, in order: after chunks that are all non-empty, at
    the first empty read or when the peer has closed, it stops having made
    one [recv] per chunk and one more, and whatever the peer would send
    after an empty read is never read. *)
Theorem recv_loop_joins (chunks : list string) (rest : list (outcome string))
    response_data (s : state) :
  Forall (fun chunk => chunk ≠ "") chunks →
  rest = [] ∨ (∃ rest', rest = Returns "" :: rest') →
  recv_loop ((Returns <$> chunks) ++ rest)%list response_data s
  = (Returns (response_data ++ join_chunks chunks), s,
     repeat (EvRecv 4096) (S (length chunks))).
Proof.
  intros Hchunks Hrest. revert response_data.
  induction Hchunks as [|chunk chunks Hne _ IH]; intros response_data.
  - simpl. rewrite recv_loop_step, string_app_empty_r.
    by destruct Hrest as [-> | [rest' ->]].
  - rewrite recv_loop_step. simpl. apply String.eqb_neq in Hne.
    rewrite Hne. simpl. rewrite IH. by rewrite string_app_assoc.
Qed.

Lemma recv_loop_joins_witness :
  recv_loop [Returns "[{"; Returns "}]"; Returns ""; Returns "late"] ""
            Scenarios.s0
  = (Returns "[{}]", Scenarios.s0, [EvRecv 4096; EvRecv 4096; EvRecv 4096]).
Proof.
  apply (recv_loop_joins ["[{"; "}]"] [Returns ""; Returns "late"] ""
           Scenarios.s0).
  - repeat constructor; discriminate.
  - right. by eexists.
Defined.

(** X3.  A [recv] that raises ends the loop with that exception, after one
    [recv] per chunk read so far and the failing one: the chunks already
    read are not returned. *)
Theorem recv_loop_raises (chunks : list string) e
    (rest : list (outcome string)) response_data (s : state) :
  Forall (fun chunk => chunk ≠ "") chunks →
  recv_loop ((Returns <$> chunks) ++ Raises e :: rest)%list response_data s
  = (Raises e, s, repeat (EvRecv 4096) (S (length chunks))).
Proof.
  intros Hchunks. revert response_data.
  induction Hchunks as [|chunk chunks Hne _ IH]; intros response_data.
  - by rewrite recv_loop_step.
  - rewrite recv_loop_step. simpl. apply String.eqb_neq in Hne.
    rewrite Hne. simpl. by rewrite IH.
Qed.

Lemma recv_loop_raises_witness :
  recv_loop [Returns "[{"; Returns "}"; Raises (LibraryError "timeout" "timed out")]
            "" Scenarios.s0
  = (Raises (LibraryError "timeout" "timed out"), Scenarios.s0,
     [EvRecv 4096; EvRecv 4096; EvRecv 4096]).
Proof.
  apply (recv_loop_raises ["[{"; "}"] (LibraryError "timeout" "timed out") []
           "" Scenarios.s0).
  repeat constructor; discriminate.
Defined.

(** ** Further properties: the calls of the service client *)

Lemma get_service_port_run (w : world) (f : frame) :
  ∃ o, get_service_port w f = (o, f, lookup_calls w)
       ∧ ∀ v, o = Returns (inl v) →
              v = port_not_found
              ∧ ∃ getProperty, xbmcgui w = Some getProperty
                  ∧ getProperty 10000 PORT_PROPERTY = Returns "".
Proof.
  unfold get_service_port, lookup_calls, bind, emit, lift, ret, raise.
  destruct (xbmcgui w) as [getProperty|]; [|by eexists].
  destruct (getProperty _ _) as [port_str|e] eqn:Hprop; [|by eexists].
  destruct (String.eqb port_str "") eqn:Hempty; simpl.
  - apply String.eqb_eq in Hempty as ->. eexists. split; [done|].
    intros v [= <-]. eauto.
  - destruct (py_int port_str); by eexists.
Qed.

Lemma recv_loop_reads (answers : list (outcome string)) response_data
    (s : state) :
  ∃ o n, recv_loop answers response_data s
         = (o, s, repeat (EvRecv 4096) (S n)).
Proof.
  revert response_data.
  induction answers as [|[chunk|e] answers IH]; intros response_data;
    rewrite recv_loop_step.
  - by exists (Returns response_data), 0%nat.
  - destruct (negb _); [|by exists (Returns response_data), 0%nat].
    destruct (IH (response_data ++ chunk)) as (o & n & ->).
    by exists o, (S n).
  - by exists (Raises e), 0%nat.
Qed.

(** [x ∉ [a; b; ...]] for an [x] that differs from each by its
    constructor. *)
Ltac not_in_list :=
  let Hin := fresh "Hin" in
  intros Hin;
  repeat (apply elem_of_cons in Hin as [?|Hin]; [done|]);
  by apply elem_of_nil in Hin.

(** The socket calls of one run, up to [sock.close()]: they start the
    sequence of a complete exchange, they are the whole of it exactly when
    the run gets through, and it is only then that the socket is closed. *)
Lemma exchange_run (w : world) (port : Z) request_data (s : state) o s' t :
  (run open_socket w port; send_and_read w request_data) s = (o, s', t) →
  s' = s
  ∧ ∃ payload reads,
      t `prefix_of` exchange_calls port payload reads
      ∧ (∀ response_data, o = Returns response_data →
           t = exchange_calls port payload reads)
      ∧ (∀ e, o = Raises e → EvClose ∉ t).
Proof.
  unfold open_socket, send_and_read, exchange_calls, bind, emit, check, lift,
    ret, raise.
  destruct (socket_socket w) as [e|]; simpl.
  { intros [= <- <- <-]. split; [done|]. exists "", 0%nat.
    split_and!; [by eexists | done | intros _ _; not_in_list]. }
  destruct (sock_connect w SERVICE_HOST port) as [e|]; simpl.
  { intros [= <- <- <-]. split; [done|]. exists "", 0%nat.
    split_and!; [by eexists | done | intros _ _; not_in_list]. }
  destruct (json_dumps w request_data) as [payload|e]; simpl.
  2:{ intros [= <- <- <-]. split; [done|]. exists "", 0%nat.
      split_and!; [by eexists | done | intros _ _; not_in_list]. }
  destruct (sock_sendall w payload) as [e|]; simpl.
  { intros [= <- <- <-]. split; [done|]. exists payload, 0%nat.
    split_and!; [by eexists | done | intros _ _; not_in_list]. }
  destruct (recv_loop_reads (sock_recv w payload) "" s) as (o1 & n & ->).
  destruct o1 as [response_data|e]; simpl; intros [= <- <- <-];
    (split; [done|]); exists payload, (S n).
  - split_and!; done.
  - split_and!; [by exists [EvClose] | done |].
    intros _ _ Hin. repeat (apply elem_of_cons in Hin as [?|Hin]; [done|]).
    by apply list_elem_of_In, repeat_spec in Hin.
Qed.

Lemma open_socket_state (w : world) (port : Z) (s : state) o s' t :
  open_socket w port s = (o, s', t) → s' = s.
Proof.
  unfold open_socket, bind, emit, check, ret, raise.
  destruct (socket_socket w); simpl; [by intros [= <- <- <-]|].
  destruct (sock_connect w _ _); simpl; by intros [= <- <- <-].
Qed.

(** Lines 78-107 run inside the activation as they run on the globals. *)
Lemma framed_exchange (w : world) (port : Z) (g : gmap string pyval → pyval)
    (s : state) (r : option pyval) :
  (run in_frame (open_socket w port);
   do DNS <- in_frame (gets DNS_SETTINGS);
   do response_data <- in_frame (send_and_read w (g DNS));
   ret (inr response_data : pyval + string)) (Frame s r)
  = let '(o, s', t) :=
      (run open_socket w port; send_and_read w (g (DNS_SETTINGS s))) s in
    (match o with
     | Returns response_data => Returns (inr response_data)
     | Raises e => Raises e
     end, Frame s' r, t).
Proof.
  unfold bind, in_frame, gets, ret. simpl.
  destruct (open_socket w port s) as [[[[]|e] s1] t1] eqn:Eopen; [|done].
  apply open_socket_state in Eopen as ->. simpl.
  destruct (send_and_read _ _ s) as [[[response_data|e] s2] t2]; simpl;
    by rewrite ?app_nil_r.
Qed.

(** The calls of the [try] body up to [sock.close()], in full. *)
Lemma service_io_calls (w : world) url params headers batch_payload
    dns_settings (s : state) o f t :
  service_io w url params headers batch_payload dns_settings (Frame s None)
    = (o, f, t) →
  ∃ port payload reads,
    t `prefix_of` (lookup_calls w ++ exchange_calls port payload reads)%list
    ∧ (∀ response_data, o = Returns (inr response_data) →
         t = (lookup_calls w ++ exchange_calls port payload reads)%list)
    ∧ (∀ e, o = Raises e → EvClose ∉ t)
    ∧ (∀ v, o = Returns (inl v) →
         t = lookup_calls w ∧ v = port_not_found
         ∧ ∃ getProperty, xbmcgui w = Some getProperty
             ∧ getProperty 10000 PORT_PROPERTY = Returns "").
Proof.
  unfold service_io. unfold bind at 1.
  destruct (get_service_port_run w (Frame s None)) as (p & -> & Hp).
  assert (Hlookup : EvClose ∉ lookup_calls w).
  { unfold lookup_calls. destruct (xbmcgui w); not_in_list. }
  destruct p as [[v|port]|e].
  - intros [= <- <- <-]. exists 0, "", 0%nat. rewrite app_nil_r.
    split_and!; [by apply prefix_app_r | done | done |].
    intros ? [= <-]. destruct (Hp v eq_refl). done.
  - rewrite (framed_exchange w port
               (build_request_data url params headers batch_payload
                                   dns_settings) s None).
    destruct (bind _ _ s) as [[o1 s1] t1] eqn:Erun.
    apply exchange_run in Erun as (-> & payload & reads & Hpre & Hfull & Hno).
    intros [= <- <- <-]. exists port, payload, reads.
    split_and!.
    + by apply prefix_app.
    + destruct o1 as [response_data|e]; [|done]. intros _ _.
      by rewrite (Hfull response_data eq_refl).
    + destruct o1 as [response_data|e]; [done|]. intros _ _.
      rewrite elem_of_app. intros [?|?]; [done | by eapply Hno].
    + by destruct o1.
  - intros [= <- <- <-]. exists 0, "", 0%nat.
    split_and!; [by apply prefix_app_r | done | done | done].
Qed.

(** The calls of a whole run are those it makes up to [sock.close()]. *)
Lemma load_info_from_service_calls (w : world) url params headers
    batch_payload dns_settings (s : state) :
  (load_info_from_service w url params headers batch_payload dns_settings
                          s).2
  = (service_io w url params headers batch_payload dns_settings
                (Frame s None)).2.
Proof.
  rewrite load_info_from_service_eq. unfold service_body, bind.
  destruct (service_io _ _ _ _ _ _ _) as [[[[v|response_data]|e] f] t];
    simpl; [by rewrite app_nil_r | | done].
  unfold decode_response, bind, lift, assign_result, ret.
  destruct (negb _); [destruct (json_loads w response_data)|]; simpl;
    by rewrite ?app_nil_r.
Qed.

(** X4.  One call of the service client is one attempt at one exchange:
    after the property lookup (when there is a property store) its calls
    are an initial part of: create the socket, set the timeout to 35,
    connect to the loopback host, send one payload, read, close.  So
    nothing is retried, the timeout is set before the connection is made
    and nothing is read before the payload is sent. *)
Theorem service_calls_in_order (w : world) url params headers batch_payload
    dns_settings (s : state) :
  ∃ port payload reads,
    (load_info_from_service w url params headers batch_payload dns_settings
                            s).2
    `prefix_of` (lookup_calls w ++ exchange_calls port payload reads)%list.
Proof.
  rewrite load_info_from_service_calls.
  destruct (service_io _ _ _ _ _ _ _) as [[o f] t] eqn:Eio.
  apply service_io_calls in Eio as (port & payload & reads & Hpre & _).
  by exists port, payload, reads.
Qed.

(** X5.  The socket is closed only by a run that gets through the read
    loop: when the property lookup, [int], the socket, the connection,
    [json.dumps], the send or a read raises, the calls of the run contain
    no [close], although the socket may have been created and connected. *)
Theorem failed_exchange_leaves_socket_open (w : world) url params headers
    batch_payload dns_settings (s : state) e f t :
  service_io w url params headers batch_payload dns_settings (Frame s None)
    = (Raises e, f, t) →
  (load_info_from_service w url params headers batch_payload dns_settings
                          s).2 = t
  ∧ EvClose ∉ t.
Proof.
  intros Hio. rewrite load_info_from_service_calls, Hio. split; [done|].
  apply service_io_calls in Hio as (_ & _ & _ & _ & _ & Hno & _).
  by eapply Hno.
Qed.

Lemma failed_exchange_leaves_socket_open_witness :
  (load_info_from_service MoreScenarios.timing_out Scenarios.url
     PNone PNone PNone PNone Scenarios.s0).2
  = [EvSocket; EvSetTimeout 35; EvConnect SERVICE_HOST 56789;
     EvSendall Scenarios.request_text; EvRecv 4096; EvRecv 4096; EvRecv 4096]
  ∧ EvClose ∉ [EvSocket; EvSetTimeout 35; EvConnect SERVICE_HOST 56789;
               EvSendall Scenarios.request_text; EvRecv 4096; EvRecv 4096;
               EvRecv 4096].
Proof.
  apply (failed_exchange_leaves_socket_open MoreScenarios.timing_out
           Scenarios.url PNone PNone PNone PNone Scenarios.s0
           (LibraryError "timeout" "timed out") (Frame Scenarios.s0 None)).
  vm_compute. reflexivity.
Defined.

(** ** Further properties: what the service client depends on and gives *)

(** The [try] body up to [sock.close()], phase by phase. *)
Lemma service_io_unfold (w : world) url params headers batch_payload
    dns_settings (s : state) :
  service_io w url params headers batch_payload dns_settings (Frame s None)
  = match (get_service_port w (Frame s None)).1.1 with
    | Returns (inl v) => (Returns (inl v), Frame s None, lookup_calls w)
    | Returns (inr port) =>
        let '(o, s', t) :=
          (run open_socket w port;
           send_and_read w (build_request_data url params headers
                              batch_payload dns_settings (DNS_SETTINGS s)))
            s in
        (match o with
         | Returns response_data => Returns (inr response_data)
         | Raises e => Raises e
         end, Frame s' None, (lookup_calls w ++ t)%list)
    | Raises e => (Raises e, Frame s None, lookup_calls w)
    end.
Proof.
  unfold service_io. unfold bind at 1.
  destruct (get_service_port_run w (Frame s None)) as (p & -> & _).
  destruct p as [[v|port]|e]; simpl; [by rewrite ?app_nil_r | | done].
  rewrite (framed_exchange w port
             (build_request_data url params headers batch_payload
                                 dns_settings) s None).
  by destruct (bind _ _ s) as [[o s'] t].
Qed.

(** The arguments reach the service through the payload only. *)
Lemma service_client_request (w : world) url params headers dns_settings
    url' params' headers' dns_settings' batch_payload (s : state) :
  build_request_data url params headers batch_payload dns_settings
                     (DNS_SETTINGS s)
  = build_request_data url' params' headers' batch_payload dns_settings'
                       (DNS_SETTINGS s) →
  load_info_from_service w url params headers batch_payload dns_settings s
  = load_info_from_service w url' params' headers' batch_payload
                           dns_settings' s.
Proof.
  intros Hrequest. rewrite !load_info_from_service_eq.
  unfold service_body, bind. rewrite !service_io_unfold. by rewrite Hrequest.
Qed.

(** X6.  In a batch call (a truthy [batch_payload]) the arguments [url],
    [params] and [headers] play no part: the payload carries the batch as
    its requests, and result, globals and calls are the same whatever
    these three are. *)
Theorem batch_call_ignores_single_request (w : world) url params headers
    url' params' headers' batch_payload dns_settings (s : state) :
  truthy batch_payload = true →
  load_info_from_service w url params headers batch_payload dns_settings s
  = load_info_from_service w url' params' headers' batch_payload
                           dns_settings s.
Proof.
  intros Hbatch. apply service_client_request.
  unfold build_request_data. by rewrite Hbatch.
Qed.

Lemma batch_call_ignores_single_request_witness :
  load_info_from_service MoreScenarios.two_results Scenarios.url
    (PDict {["page" := PInt 2]}) (PDict {["X" := PStr "1"]})
    (PList [Scenarios.item; Scenarios.item]) PNone Scenarios.s0
  = load_info_from_service MoreScenarios.two_results ""
      PNone PNone (PList [Scenarios.item; Scenarios.item]) PNone Scenarios.s0.
Proof.
  by apply (batch_call_ignores_single_request MoreScenarios.two_results).
Defined.

(** X7.  For the optional arguments an empty mapping is as good as [None]:
    [headers={}] sends the same empty headers as no headers, and
    [dns_settings={}] does not switch the global DNS settings off, it sends
    them as [dns_settings=None] does. *)
Theorem empty_options_are_none (w : world) url params batch_payload
    (s : state) :
  load_info_from_service w url params (PDict ∅) batch_payload (PDict ∅) s
  = load_info_from_service w url params PNone batch_payload PNone s.
Proof. by apply service_client_request. Qed.

Lemma recv_loop_any_state (answers : list (outcome string)) response_data
    (s s' : state) :
  recv_loop answers response_data s'
  = let '(o, _, t) := recv_loop answers response_data s in (o, s', t).
Proof.
  revert response_data.
  induction answers as [|[chunk|e] answers IH]; intros response_data;
    rewrite (recv_loop_step _ _ s), (recv_loop_step _ _ s'); [done | | done].
  destruct (negb _); [|done]. rewrite IH.
  by destruct (recv_loop answers _ s) as [[o s1] t].
Qed.

(** The exchange does not look at the globals. *)
Lemma exchange_any_state (w : world) (port : Z) request_data (s s' : state) :
  (run open_socket w port; send_and_read w request_data) s'
  = let '(o, _, t) :=
      (run open_socket w port; send_and_read w request_data) s in
    (o, s', t).
Proof.
  unfold open_socket, send_and_read, bind, emit, check, lift, ret, raise.
  destruct (socket_socket w); [done|]. simpl.
  destruct (sock_connect w _ _); [done|]. simpl.
  destruct (json_dumps w request_data) as [payload|e]; [|done]. simpl.
  destruct (sock_sendall w payload); [done|]. simpl.
  rewrite (recv_loop_any_state _ _ s s').
  by destruct (recv_loop _ _ s) as [[[response_data|e] s1] t].
Qed.

(** X8.  A truthy [dns_settings] argument replaces the global DNS settings
    in the payload: what the call returns and the calls it makes are then
    the same under any global DNS settings. *)
Theorem dns_argument_overrides_global (w : world) url params headers
    batch_payload dns_settings (h d d' : gmap string pyval) :
  truthy dns_settings = true →
  (load_info_from_service w url params headers batch_payload dns_settings
                          (State h d)).1.1
  = (load_info_from_service w url params headers batch_payload dns_settings
                            (State h d')).1.1
  ∧ (load_info_from_service w url params headers batch_payload dns_settings
                            (State h d)).2
    = (load_info_from_service w url params headers batch_payload dns_settings
                              (State h d')).2.
Proof.
  intros Hdns. rewrite !load_info_from_service_eq.
  unfold service_body, bind. rewrite !service_io_unfold.
  assert (Hport : (get_service_port w (Frame (State h d') None)).1.1
                  = (get_service_port w (Frame (State h d) None)).1.1).
  { unfold get_service_port, bind, emit, lift, ret, raise.
    destruct (xbmcgui w) as [getProperty|]; [|done].
    destruct (getProperty _ _) as [port_str|e]; [|done]. simpl.
    destruct (negb _); [|done]. by destruct (py_int port_str). }
  rewrite Hport. clear Hport.
  destruct (get_service_port w _).1.1 as [[v|port]|e]; [done | | done].
  unfold build_request_data, py_or. rewrite Hdns. simpl.
  rewrite (exchange_any_state w port _ (State h d) (State h d')).
  destruct (bind _ _ (State h d)) as [[[response_data|e] s1] t1]; [|done].
  simpl. unfold decode_response, bind, lift, assign_result, ret.
  destruct (negb _); [|done]. by destruct (json_loads w response_data).
Qed.

Lemma dns_argument_overrides_global_witness :
  (load_info_from_service
     (Scenarios.answering ("[" ++ Scenarios.item_text ++ "]")
                          (Raises Scenarios.connection_error))
     Scenarios.url PNone PNone PNone (PDict {["doh" := PBool true]})
     (State ∅ {["doh" := PBool false]})).1.1
  = (load_info_from_service
       (Scenarios.answering ("[" ++ Scenarios.item_text ++ "]")
                            (Raises Scenarios.connection_error))
       Scenarios.url PNone PNone PNone (PDict {["doh" := PBool true]})
       (State ∅ ∅)).1.1.
Proof.
  by apply (dns_argument_overrides_global
              (Scenarios.answering ("[" ++ Scenarios.item_text ++ "]")
                                   (Raises Scenarios.connection_error))).
Defined.

(** X9.  Whatever the collaborators do, a call of the service client has
    one of four ends: it raises, and then always the [UnboundLocalError] on
    [result], never the exception that occurred; it returns the
    port-discovery error, which takes a property store whose port property
    is empty; it returns the empty-response error; or it has closed the
    socket and returns the decoded answer, unwrapped or not.  It never
    changes the globals, never logs and never makes an HTTP request, so the
    error object of lines 127-137 is not among its own results. *)
Theorem service_client_outcomes (w : world) url params headers batch_payload
    dns_settings (s : state) :
  (load_info_from_service w url params headers batch_payload dns_settings
                          s).1.2 = s
  ∧ Forall (fun ev => is_log ev = false ∧ is_get ev = false)
      (load_info_from_service w url params headers batch_payload dns_settings
                              s).2
  ∧ ((load_info_from_service w url params headers batch_payload dns_settings
                             s).1.1 = Raises (UnboundLocalError "result")
     ∨ ((load_info_from_service w url params headers batch_payload
                                dns_settings s).1.1 = Returns port_not_found
        ∧ ∃ getProperty, xbmcgui w = Some getProperty
            ∧ getProperty 10000 PORT_PROPERTY = Returns "")
     ∨ (load_info_from_service w url params headers batch_payload dns_settings
                               s).1.1 = Returns empty_response
     ∨ ∃ response_data r,
         response_data ≠ ""
         ∧ json_loads w response_data = Returns r
         ∧ EvClose ∈ (load_info_from_service w url params headers
                        batch_payload dns_settings s).2
         ∧ (load_info_from_service w url params headers batch_payload
                                   dns_settings s).1.1
           = Returns (unwrap batch_payload r)).
Proof.
  split_and!.
  - destruct (load_info_from_service _ _ _ _ _ _ _) as [[o s'] t] eqn:Erun.
    by apply load_info_from_service_events in Erun as [-> _].
  - destruct (load_info_from_service _ _ _ _ _ _ _) as [[o s'] t] eqn:Erun.
    apply load_info_from_service_events in Erun as [_ Ht].
    eapply Forall_impl; [exact Ht|]. by intros [].
  - destruct (service_io w url params headers batch_payload dns_settings
                (Frame s None)) as [[[[v|response_data]|e] f] t] eqn:Eio.
    + right; left.
      destruct (service_io_calls _ _ _ _ _ _ _ _ _ _ Eio)
        as (_ & _ & _ & _ & _ & _ & Hv).
      destruct (Hv v eq_refl) as (_ & -> & Hprop). split; [|done].
      rewrite load_info_from_service_eq. unfold service_body, bind.
      by rewrite Eio.
    + destruct (service_io_calls _ _ _ _ _ _ _ _ _ _ Eio)
        as (port & payload & reads & _ & Hfull & _).
      rewrite load_info_from_service_calls, Eio.
      rewrite (run_decode _ _ _ _ _ _ _ _ _ _ Eio).
      destruct (String.eqb response_data "") eqn:Hempty; [by right; right; left|].
      destruct (json_loads w response_data) as [r|e] eqn:Hjson; [|by left].
      right; right; right. exists response_data, r.
      split_and!; [by apply String.eqb_neq | done | | done].
      simpl. rewrite (Hfull response_data eq_refl). unfold exchange_calls.
      rewrite !elem_of_app, list_elem_of_singleton. auto.
    + left. rewrite load_info_from_service_eq. unfold service_body, bind.
      by rewrite Eio.
Qed.

(** ** Further properties: the facade *)

Lemma load_info_service_raises (w : world) url params dflt resp_type
    (s : state) t1 t2 e :
  log_request w url params s = (Returns tt, s, t1) →
  load_info_from_service w url params (PDict (HEADERS s)) PNone PNone s
    = (Raises e, s, t2) →
  load_info w url params dflt resp_type s = (Raises e, s, (t1 ++ t2)%list).
Proof.
  intros Hlog Hsvc. unfold load_info.
  unfold bind at 1. rewrite Hlog.
  unfold bind at 1. unfold gets at 1. unfold bind at 1. by rewrite Hsvc.
Qed.

(** X10.  Whenever the [try] body of the service client raises (the
    service is not running, the port is no number, a read times out, the
    answer is no JSON), [load_info] raises [UnboundLocalError] too: it
    makes no direct request and does not return [default]. *)
Theorem service_failure_skips_fallback (w : world) url params dflt resp_type
    (s : state) t1 t2 e f :
  log_request w url params s = (Returns tt, s, t1) →
  service_body w url params (PDict (HEADERS s)) PNone PNone (Frame s None)
    = (Raises e, f, t2) →
  load_info w url params dflt resp_type s
    = (Raises (UnboundLocalError "result"), s, (t1 ++ t2)%list)
  ∧ Forall (fun ev => is_get ev = false) (t1 ++ t2)%list.
Proof.
  intros Hlog Hbody.
  assert (Hsvc :
    load_info_from_service w url params (PDict (HEADERS s)) PNone PNone s
    = (Raises (UnboundLocalError "result"), s, t2)).
  { by rewrite load_info_from_service_eq, Hbody. }
  split; [by apply load_info_service_raises|].
  rewrite Forall_app. split.
  - by destruct (log_request_events (fun _ => True)
                   (fun ev => is_get ev = false) w url params
                   (fun _ _ _ => eq_refl) _ _ _ _ I Hlog) as (_ & ? & _).
  - apply load_info_from_service_events in Hsvc as [_ Ht].
    by eapply service_event_no_get.
Qed.

Lemma service_failure_skips_fallback_witness :
  load_info Scenarios.service_down Scenarios.url PNone (PList []) "json"
            Scenarios.s0
  = (Raises (UnboundLocalError "result"), Scenarios.s0,
     [EvLog ("Calling URL " ++ dquote ++ Scenarios.url ++ dquote) LOGDEBUG;
      EvGetProperty 10000 PORT_PROPERTY; EvSocket; EvSetTimeout 35;
      EvConnect SERVICE_HOST 45123]).
Proof.
  refine (proj1 (service_failure_skips_fallback Scenarios.service_down
            Scenarios.url PNone (PList []) "json" Scenarios.s0
            [EvLog ("Calling URL " ++ dquote ++ Scenarios.url ++ dquote)
                   LOGDEBUG]
            [EvGetProperty 10000 PORT_PROPERTY; EvSocket; EvSetTimeout 35;
             EvConnect SERVICE_HOST 45123]
            Scenarios.refused (Frame Scenarios.s0 None) _ _));
    vm_compute; reflexivity.
Defined.

Lemma no_error_item (l : list pyval) :
  PStr "error" ∉ l →
  existsb (fun x => match x with
                    | PStr s => String.eqb s "error"
                    | _ => false
                    end) l = false.
Proof.
  induction l as [|x l IH]; [done|]. rewrite not_elem_of_cons.
  intros [Hx Hl]. simpl. rewrite (IH Hl), orb_false_r.
  destruct x as [| | | |x| |]; try done.
  apply String.eqb_neq. congruence.
Qed.

(** X11.  [load_info] counts on the service result being a mapping.  When
    it is a list in which the string ['error'] does not occur (an answer of
    no or of several results), the membership test passes and the call
    raises [AttributeError] at [.get]; when it is [None], a boolean or a
    number, the membership test itself raises [TypeError].  In either case
    no direct request is made and [default] is not returned. *)
Theorem non_mapping_result_raises (w : world) url params dflt resp_type
    (s : state) t1 t2 v :
  log_request w url params s = (Returns tt, s, t1) →
  load_info_from_service w url params (PDict (HEADERS s)) PNone PNone s
    = (Returns v, s, t2) →
  (∀ l, v = PList l → PStr "error" ∉ l →
     ∃ msg, load_info w url params dflt resp_type s
            = (Raises (AttributeError msg), s, (t1 ++ t2)%list))
  ∧ (match v with
     | PNone | PBool _ | PInt _ | PFloat _ => True
     | _ => False
     end →
     ∃ msg, load_info w url params dflt resp_type s
            = (Raises (TypeError msg), s, (t1 ++ t2)%list)).
Proof.
  intros Hlog Hsvc.
  rewrite (load_info_after_service _ _ _ _ _ _ _ _ _ Hlog Hsvc).
  unfold bind, lift. split.
  - intros l -> Hl. simpl. rewrite (no_error_item l Hl). simpl.
    unfold service_success, bind, lift. simpl.
    destruct (String.eqb _ _); eexists; simpl; by rewrite ?app_nil_r.
  - destruct v; try done; intros _; eexists; simpl; by rewrite ?app_nil_r.
Qed.

Lemma non_mapping_result_raises_witness :
  (load_info MoreScenarios.two_results Scenarios.url PNone (PList []) "json"
             Scenarios.s0).1.1
  = Raises (AttributeError "'list' object has no attribute 'get'").
Proof.
  destruct (non_mapping_result_raises MoreScenarios.two_results Scenarios.url
              PNone (PList []) "json" Scenarios.s0 []
              [EvSocket; EvSetTimeout 35; EvConnect SERVICE_HOST 56789;
               EvSendall Scenarios.request_text; EvRecv 4096; EvRecv 4096;
               EvClose]
              (PList [Scenarios.item; Scenarios.item]))
    as [Hlist _]; [reflexivity | vm_compute; reflexivity |].
  destruct (Hlist _ eq_refl) as [msg Hrun].
  - intros Hin. repeat (apply elem_of_cons in Hin as [?|Hin]; [done|]).
    by apply elem_of_nil in Hin.
  - rewrite Hrun. vm_compute in Hrun. by injection Hrun as <-.
Defined.

(** X12.  The debug log is written before anything else and outside any
    [try]: inside Kodi, with parameters that are truthy and that
    [urlencode] rejects, [load_info] raises that exception at once, before
    the property lookup, any socket call or any request, and without
    returning [default]. *)
Theorem unencodable_params_abort (w : world) url params dflt resp_type
    (s : state) e :
  xbmc w = true →
  truthy params = true →
  urlencode w params = Raises e →
  load_info w url params dflt resp_type s = (Raises e, s, []).
Proof.
  intros Hlog Hparams Hencode.
  unfold load_info, log_request, bind, lift.
  by rewrite Hlog, Hparams, Hencode.
Qed.

Lemma unencodable_params_abort_witness :
  load_info MoreScenarios.unencodable Scenarios.url (PInt 5) (PList []) "json"
            Scenarios.s0
  = (Raises (TypeError "not a valid non-string sequence or mapping object"),
     Scenarios.s0, []).
Proof.
  by apply (unencodable_params_abort MoreScenarios.unencodable).
Defined.

(** X13.  [load_info] leaves the globals as they are, and outside Kodi
    ([xbmc] missing) it logs nothing. *)
Theorem load_info_keeps_globals (w : world) url params dflt resp_type
    (s : state) :
  (load_info w url params dflt resp_type s).1.2 = s
  ∧ (xbmc w = false →
     Forall (fun ev => is_log ev = false)
       (load_info w url params dflt resp_type s).2).
Proof.
  destruct (load_info _ _ _ _ _ _) as [[o s'] t] eqn:Erun.
  apply load_info_events in Erun as [-> Ht]. split; [done|].
  intros Hlog. eapply Forall_impl; [exact Ht|].
  intros [] Hev; try done. simpl in Hev. congruence.
Qed.

Lemma load_info_keeps_globals_witness :
  Forall (fun ev => is_log ev = false)
    (load_info
       (Scenarios.answering ("[" ++ Scenarios.failed_text ++ "]")
                            (Returns Scenarios.ok_response))
       Scenarios.url PNone PNone "json" Scenarios.s0).2.
Proof.
  by apply (proj2 (load_info_keeps_globals
              (Scenarios.answering ("[" ++ Scenarios.failed_text ++ "]")
                                   (Returns Scenarios.ok_response))
              Scenarios.url PNone PNone "json" Scenarios.s0)).
Defined.

(** X14.  After [set_dns_settings(m)] (for a mapping [m], or [None], which
    stands for no settings), every payload a [load_info] sends to the
    service is the serialization of one envelope with the current headers
    and with exactly [m] as its ['dns_settings']. *)
Theorem dns_settings_reach_service (m : option (gmap string pyval))
    (s : state) (w : world) url params dflt resp_type data :
  EvSendall data
  ∈ (load_info w url params dflt resp_type (set_dns_settings m s).1.2).2 →
  json_dumps w
    (PDict (<["requests" :=
                PList [PDict (<["url" := PStr url]>
                              (<["params" := params]>
                               {["headers" := PDict (HEADERS s)]}))]]>
            {["dns_settings" :=
                PDict (match m with Some d => d | None => ∅ end)]}))
  = Returns data.
Proof.
  assert (Hset : (set_dns_settings m s).1.2
                 = State (HEADERS s) (match m with Some d => d | None => ∅ end)).
  { unfold set_dns_settings. destruct m as [d|]; [|done]. simpl.
    case_bool_decide as Hd; simpl; [by rewrite Hd|].
    by rewrite dict_update_empty. }
  rewrite Hset. intros Hev.
  destruct (load_info _ _ _ _ _ _) as [[o s'] t] eqn:Erun.
  apply load_info_events in Erun as [_ Ht].
  rewrite Forall_forall in Ht. exact (Ht _ Hev).
Qed.

Lemma dns_settings_reach_service_witness :
  json_dumps
    (Scenarios.answering ("[" ++ Scenarios.item_text ++ "]")
                         (Raises Scenarios.connection_error))
    (PDict (<["requests" :=
                PList [PDict (<["url" := PStr Scenarios.url]>
                              (<["params" := PNone]>
                               {["headers" := PDict ∅]}))]]>
            {["dns_settings" := PDict {["doh" := PBool true]}]}))
  = Returns Scenarios.request_text.
Proof.
  apply (dns_settings_reach_service (Some {["doh" := PBool true]})
           Scenarios.s0
           (Scenarios.answering ("[" ++ Scenarios.item_text ++ "]")
                                (Raises Scenarios.connection_error))
           Scenarios.url PNone PNone "json" Scenarios.request_text).
  vm_compute. repeat (first [apply list_elem_of_here | apply list_elem_of_further]).
Defined.

Lemma service_success_no_calls (w : world) resp_type service_result
    (s : state) :
  ∃ o, service_success w resp_type service_result s = (o, s, []).
Proof.
  unfold service_success, bind, lift, ret.
  destruct (String.eqb _ _); [|by eexists].
  destruct (py_get service_result "json" PNone) as [j|e]; [|by eexists].
  destruct (truthy j); [by eexists|].
  destruct (py_get service_result "text" _); by eexists.
Qed.

(** X15.  The direct request is made only in answer to a service result in
    which ['error'] is found: if a run of [load_info] contains a
    [requests.get], the service client returned a value [v] and
    ['error' in v] held. *)
Theorem fallback_only_after_error_answer (w : world) url params dflt
    resp_type (s : state) :
  List.filter is_get (load_info w url params dflt resp_type s).2 ≠ [] →
  ∃ v,
    (load_info_from_service w url params (PDict (HEADERS s)) PNone PNone
                            s).1.1 = Returns v
    ∧ py_contains "error" v = Returns true.
Proof.
  unfold load_info. unfold bind at 1.
  destruct (log_request w url params s) as [[o1 s1] t1] eqn:Hlog.
  destruct (log_request_events (fun s' => s' = s)
              (fun ev => is_get ev = false) w url params
              (fun _ _ _ => eq_refl) _ _ _ _ eq_refl Hlog) as (-> & Ht1 & _).
  destruct o1 as [[]|e]; simpl;
    [|by rewrite (filter_is_get_nil _ Ht1)].
  unfold bind at 1. unfold gets at 1. unfold bind at 1.
  destruct (load_info_from_service _ _ _ _ _ _ _) as [[o2 s2] t2] eqn:Hsvc.
  destruct (load_info_from_service_events _ _ _ _ _ _ _ _ _ _ Hsvc)
    as [-> Ht2%service_event_no_get].
  assert (Ht12 : List.filter is_get (t1 ++ t2)%list = []).
  { apply filter_is_get_nil. by rewrite Forall_app. }
  destruct o2 as [v|e]; cbn [fst snd app]; [|by rewrite Ht12].
  unfold bind, lift.
  destruct (py_contains "error" v) as [[]|e] eqn:Hin; cbn [fst snd negb app].
  - intros _. by exists v.
  - destruct (service_success_no_calls w resp_type v s) as [o ->].
    cbn [fst snd app]. by rewrite !app_nil_r, Ht12.
  - by rewrite !app_nil_r, Ht12.
Qed.

Lemma fallback_only_after_error_answer_witness :
  ∃ v,
    (load_info_from_service
       (Scenarios.answering ("[" ++ Scenarios.failed_text ++ "]")
                            (Returns Scenarios.ok_response))
       Scenarios.url PNone (PDict ∅) PNone PNone Scenarios.s0).1.1 = Returns v
    ∧ py_contains "error" v = Returns true.
Proof.
  apply (fallback_only_after_error_answer
           (Scenarios.answering ("[" ++ Scenarios.failed_text ++ "]")
                                (Returns Scenarios.ok_response))
           Scenarios.url PNone PNone "json" Scenarios.s0).
  vm_compute. discriminate.
Defined.

(** X16.  Of [resp_type] only one thing matters, whether its lower-case
    form is ['json']: two response types that agree on that give the same
    run, so ['text'], ['xml'] and [''] all ask for the raw text, and
    ['JSON'] asks for what ['json'] asks. *)
Theorem resp_type_only_json_matters (w : world) url params dflt
    resp_type resp_type' (s : state) :
  String.eqb (py_lower resp_type) "json"
  = String.eqb (py_lower resp_type') "json" →
  load_info w url params dflt resp_type s
  = load_info w url params dflt resp_type' s.
Proof.
  intros Hsame.
  unfold load_info, service_success, service_fallback, direct_request.
  by rewrite Hsame.
Qed.

Lemma resp_type_only_json_matters_witness :
  load_info
    (Scenarios.answering_kodi ("[" ++ Scenarios.failed_text ++ "]")
                              (Returns Scenarios.ok_response))
    Scenarios.url PNone PNone "xml" Scenarios.s0
  = load_info
      (Scenarios.answering_kodi ("[" ++ Scenarios.failed_text ++ "]")
                                (Returns Scenarios.ok_response))
      Scenarios.url PNone PNone "" Scenarios.s0.
Proof.
  by apply (resp_type_only_json_matters
              (Scenarios.answering_kodi ("[" ++ Scenarios.failed_text ++ "]")
                                        (Returns Scenarios.ok_response))).
Defined.

(** X17.  The port is whatever number the property holds: nothing checks
    that it is a TCP port.  Inside Kodi, once [int] accepts the property,
    negative or above 65535 as the number may be, the client creates the
    socket and tries to connect to that number. *)
Theorem port_is_not_validated (w : world) getProperty port_str port url
    params headers batch_payload dns_settings (s : state) :
  xbmcgui w = Some getProperty →
  getProperty 10000 PORT_PROPERTY = Returns port_str →
  py_int port_str = Some port →
  socket_socket w = None →
  EvConnect SERVICE_HOST port
  ∈ (load_info_from_service w url params headers batch_payload dns_settings
                            s).2.
Proof.
  intros Hgui Hprop Hint Hsock.
  assert (Hne : String.eqb port_str "" = false).
  { apply String.eqb_neq. by intros ->. }
  rewrite load_info_from_service_calls, service_io_unfold.
  unfold get_service_port, bind, emit, lift, ret.
  rewrite Hgui, Hprop, Hne. simpl. rewrite Hint. simpl.
  unfold open_socket, bind, emit, check, ret, raise. rewrite Hsock. simpl.
  destruct (sock_connect w SERVICE_HOST port); simpl.
  - rewrite elem_of_app. right. do 2 apply list_elem_of_further.
    apply list_elem_of_here.
  - destruct (send_and_read _ _ s) as [[o s'] t]. simpl.
    rewrite elem_of_app. right. do 2 apply list_elem_of_further.
    apply list_elem_of_here.
Qed.

Lemma port_is_not_validated_witness :
  EvConnect SERVICE_HOST (-5)
  ∈ (load_info_from_service MoreScenarios.port_out_of_range Scenarios.url
       PNone PNone PNone PNone Scenarios.s0).2.
Proof.
  by eapply (port_is_not_validated MoreScenarios.port_out_of_range _ "-5").
Defined.

(** ** Further properties: logging *)

Lemma service_client_without_xbmc (w : world) url params headers
    batch_payload dns_settings (s : state) :
  load_info_from_service (without_xbmc w) url params headers batch_payload
                         dns_settings s
  = load_info_from_service w url params headers batch_payload dns_settings s.
Proof. by rewrite !load_info_from_service_eq. Qed.

Lemma filter_logs_all (t : list event) :
  Forall (fun ev => is_log ev = true) t →
  List.filter (fun ev => negb (is_log ev)) t = [].
Proof.
  induction 1 as [|ev t Hev _ IH]; [done|]. simpl. by rewrite Hev.
Qed.

Lemma filter_logs_none (t : list event) :
  Forall (fun ev => is_log ev = false) t →
  List.filter (fun ev => negb (is_log ev)) t = t.
Proof.
  induction 1 as [|ev t Hev _ IH]; [done|]. simpl. by rewrite Hev, IH.
Qed.

Lemma direct_attempt_run (w : world) url params dflt resp_type (s : state) :
  ∃ o, try_except (direct_request w url params resp_type)
         [(is_Exception, direct_failure dflt)] s
       = (o, s, [EvGet url params (HEADERS s) 30]).
Proof.
  unfold try_except. rewrite direct_request_run. simpl.
  unfold direct_failure, ret.
  destruct (requests_get _ _ _ _ _) as [resp|e];
    [|destruct (negb _); by eexists].
  destruct (raise_for_status resp) as [e|];
    [destruct (negb _); by eexists|].
  destruct (String.eqb _ _); [|by eexists].
  destruct (resp_json resp); [by eexists|].
  destruct (negb _); by eexists.
Qed.

(** [load_info], phase by phase. *)
Lemma load_info_unfold (w : world) url params dflt resp_type (s : state) :
  load_info w url params dflt resp_type s =
  let '(o1, s1, t1) := log_request w url params s in
  match o1 with
  | Raises e => (Raises e, s1, t1)
  | Returns _ =>
      let '(o2, s2, t2) :=
        load_info_from_service w url params (PDict (HEADERS s1)) PNone PNone
                               s1 in
      match o2 with
      | Raises e => (Raises e, s2, (t1 ++ t2)%list)
      | Returns service_result =>
          match py_contains "error" service_result with
          | Raises e => (Raises e, s2, (t1 ++ t2)%list)
          | Returns has_error =>
              let '(o3, s3, t3) :=
                (if negb has_error
                 then service_success w resp_type service_result
                 else service_fallback w url params dflt resp_type
                        service_result) s2 in
              (o3, s3, (t1 ++ t2 ++ t3)%list)
          end
      end
  end.
Proof.
  unfold load_info, bind, gets, lift.
  destruct (log_request w url params s) as [[[[]|e] s1] t1]; [|done].
  destruct (load_info_from_service _ _ _ _ _ _ _) as [[[v|e] s2] t2];
    [|done].
  destruct (py_contains "error" v) as [b|e]; [|by rewrite app_nil_r].
  simpl. destruct (negb b).
  - by destruct (service_success w resp_type v s2) as [[o3 s3] t3].
  - by destruct (service_fallback w url params dflt resp_type v s2)
      as [[o3 s3] t3].
Qed.

(** X18.  Logging never changes a result: when [load_info] returns a value
    inside Kodi, then with the same collaborators but without [xbmc] it
    returns the same value, after the same calls less the log entries.
    (Not the other way round: by X12 the log can make a call fail.) *)
Theorem logging_does_not_change_results (w : world) url params dflt resp_type
    (s s' : state) v t :
  load_info w url params dflt resp_type s = (Returns v, s', t) →
  load_info (without_xbmc w) url params dflt resp_type s
  = (Returns v, s', List.filter (fun ev => negb (is_log ev)) t).
Proof.
  rewrite !load_info_unfold.
  destruct (log_request w url params s) as [[o1 s1] t1] eqn:Hlog.
  destruct (log_request_events (fun s' => s' = s)
              (fun ev => is_log ev = true) w url params
              (fun _ _ _ => eq_refl) _ _ _ _ eq_refl Hlog) as (-> & Ht1 & _).
  destruct o1 as [[]|e]; [|done].
  replace (log_request (without_xbmc w) url params s)
    with (@Returns unit tt, s, @nil event) by done.
  rewrite service_client_without_xbmc.
  destruct (load_info_from_service _ _ _ _ _ _ _) as [[o2 s2] t2] eqn:Hsvc.
  destruct (load_info_from_service_events _ _ _ _ _ _ _ _ _ _ Hsvc)
    as [-> Ht2].
  assert (Ht2' : Forall (fun ev => is_log ev = false) t2).
  { eapply Forall_impl; [exact Ht2|]. by intros []. }
  destruct o2 as [service_result|e]; [|done].
  destruct (py_contains "error" service_result) as [[]|e]; [| |done];
    cbn [negb].
  - unfold service_fallback. unfold bind at 1 3.
    destruct (direct_attempt_run w url params dflt resp_type s) as [o3 Hdirect].
    change (direct_request (without_xbmc w)) with (direct_request w).
    destruct (xbmc w) eqn:Hxbmc; cbn [xbmc without_xbmc].
    + unfold bind at 1. unfold lift at 1.
      destruct (py_getitem service_result "error") as [err|e]; [|done].
      unfold emit at 1. unfold ret at 1. rewrite Hdirect.
      cbn [app]. intros [= -> <- <-].
      rewrite !List.filter_app, (filter_logs_all _ Ht1),
        (filter_logs_none _ Ht2'). by simpl.
    + unfold ret at 1 2. rewrite Hdirect. cbn [app]. intros [= -> <- <-].
      rewrite !List.filter_app, (filter_logs_all _ Ht1),
        (filter_logs_none _ Ht2'). by simpl.
  - change (service_success (without_xbmc w)) with (service_success w).
    destruct (service_success_no_calls w resp_type service_result s)
      as [o3 ->].
    cbn [app]. intros [= -> <- <-].
    rewrite !List.filter_app, (filter_logs_all _ Ht1),
      (filter_logs_none _ Ht2'). by simpl.
Qed.

Lemma logging_does_not_change_results_witness :
  load_info
    (without_xbmc
       (Scenarios.answering_kodi ("[" ++ Scenarios.failed_text ++ "]")
                                 (Returns Scenarios.ok_response)))
    Scenarios.url PNone PNone "json" Scenarios.s0
  = (Returns (PDict {["b" := PInt 2]}), Scenarios.s0,
     [EvGetProperty 10000 PORT_PROPERTY; EvSocket; EvSetTimeout 35;
      EvConnect SERVICE_HOST 45123; EvSendall Scenarios.request_text;
      EvRecv 4096; EvRecv 4096; EvClose;
      EvGet Scenarios.url PNone ∅ 30]).
Proof.
  apply (logging_does_not_change_results
           (Scenarios.answering_kodi ("[" ++ Scenarios.failed_text ++ "]")
                                     (Returns Scenarios.ok_response))
           Scenarios.url PNone PNone "json" Scenarios.s0 Scenarios.s0
           (PDict {["b" := PInt 2]})
           [EvLog ("Calling URL " ++ dquote ++ Scenarios.url ++ dquote)
                  LOGDEBUG;
            EvGetProperty 10000 PORT_PROPERTY; EvSocket; EvSetTimeout 35;
            EvConnect SERVICE_HOST 45123; EvSendall Scenarios.request_text;
            EvRecv 4096; EvRecv 4096; EvClose;
            EvLog ("[TMDB Scraper] -----Service unavailable (x), "
                   ++ "falling back to direct request") LOGWARNING;
            EvGet Scenarios.url PNone ∅ 30]).
  vm_compute. reflexivity.
Defined.

(** ** C8: what the setters leave, and where the headers go *)

Lemma discovered_port_run (w : world) (port : Z) (f : frame) :
  discovered_port w port →
  (get_service_port w f).1.1 = Returns (inr port).
Proof.
  unfold discovered_port, get_service_port, bind, emit, lift, ret.
  destruct (xbmcgui w) as [getProperty|]; [|by intros ->].
  intros (port_str & -> & Hne%String.eqb_neq & Hint). simpl.
  by rewrite Hne, Hint.
Qed.

(** Once the port is known, the socket exists, the connection is made and
    the request is serialized, the serialized request is sent. *)
Lemma payload_is_sent (w : world) url params headers batch_payload
    dns_settings (s : state) port payload :
  discovered_port w port →
  socket_socket w = None →
  sock_connect w SERVICE_HOST port = None →
  json_dumps w (build_request_data url params headers batch_payload
                                   dns_settings (DNS_SETTINGS s))
    = Returns payload →
  EvSendall payload
  ∈ (load_info_from_service w url params headers batch_payload dns_settings
                            s).2.
Proof.
  intros Hport Hsock Hconnect Hdumps.
  rewrite load_info_from_service_calls, service_io_unfold.
  rewrite (discovered_port_run w port _ Hport).
  unfold open_socket, send_and_read, bind, emit, check, lift, ret, raise.
  rewrite Hsock, Hconnect, Hdumps. simpl.
  destruct (sock_sendall w payload); simpl.
  - rewrite elem_of_app. right. do 3 apply list_elem_of_further.
    apply list_elem_of_here.
  - destruct (recv_loop _ _ s) as [[[response_data|e] s'] t]; simpl;
      rewrite elem_of_app; right; do 3 apply list_elem_of_further;
      apply list_elem_of_here.
Qed.

(** The calls of the service client are among those of [load_info]. *)
Lemma service_calls_in_load_info (w : world) url params dflt resp_type
    (s : state) t1 ev :
  log_request w url params s = (Returns tt, s, t1) →
  ev ∈ (load_info_from_service w url params (PDict (HEADERS s)) PNone PNone
                               s).2 →
  ev ∈ (load_info w url params dflt resp_type s).2.
Proof.
  intros Hlog. rewrite load_info_unfold, Hlog.
  destruct (load_info_from_service _ _ _ _ _ _ _) as [[[v|e] s2] t2];
    cbn [fst snd]; intros Hev; [|rewrite elem_of_app; by right].
  destruct (py_contains "error" v) as [b|e]; cbn [fst snd];
    [|rewrite elem_of_app; by right].
  destruct (negb b).
  - destruct (service_success w resp_type v s2) as [[o3 s3] t3].
    cbn [fst snd]. rewrite !elem_of_app. auto.
  - destruct (service_fallback w url params dflt resp_type v s2)
      as [[o3 s3] t3].
    cbn [fst snd]. rewrite !elem_of_app. auto.
Qed.

(** C8.  Whatever the globals were, [set_headers(m)] leaves the headers
    equal to [m] and [set_dns_settings(m)] leaves the DNS settings equal to
    [m]; [set_headers({})] leaves no header at all.  In a [load_info] that
    follows [set_headers(m)], every payload sent to the service is the
    serialization of the one envelope whose ['headers'] are [m], and every
    direct request has [m] as its headers.  Both do happen: that payload is
    sent as soon as the port is discovered, the connection is made and the
    envelope is serialized, and the direct request with the headers [m] is
    made as soon as the service result holds an ['error'] key. *)
Theorem setters_replace (m : gmap string pyval) (s : state) (w : world)
    url params dflt resp_type :
  set_headers m s = (Returns tt, State m (DNS_SETTINGS s), [])
  ∧ set_dns_settings (Some m) s = (Returns tt, State (HEADERS s) m, [])
  ∧ HEADERS (set_headers ∅ s).1.2 = ∅
  ∧ (∀ ev,
       ev ∈ (load_info w url params dflt resp_type (set_headers m s).1.2).2 →
       match ev with
       | EvSendall data =>
           json_dumps w
             (PDict (<["requests" :=
                         PList [PDict (<["url" := PStr url]>
                                       (<["params" := params]>
                                        {["headers" := PDict m]}))]]>
                     {["dns_settings" := PDict (DNS_SETTINGS s)]}))
           = Returns data
       | EvGet _ _ headers _ => headers = m
       | _ => True
       end)
  ∧ (∀ t1 port payload,
       log_request w url params (set_headers m s).1.2
         = (Returns tt, (set_headers m s).1.2, t1) →
       discovered_port w port →
       socket_socket w = None →
       sock_connect w SERVICE_HOST port = None →
       json_dumps w
         (PDict (<["requests" :=
                     PList [PDict (<["url" := PStr url]>
                                   (<["params" := params]>
                                    {["headers" := PDict m]}))]]>
                 {["dns_settings" := PDict (DNS_SETTINGS s)]}))
         = Returns payload →
       EvSendall payload
       ∈ (load_info w url params dflt resp_type (set_headers m s).1.2).2)
  ∧ (∀ t1 t2 (d : gmap string pyval),
       log_request w url params (set_headers m s).1.2
         = (Returns tt, (set_headers m s).1.2, t1) →
       load_info_from_service w url params (PDict m) PNone PNone
                              (set_headers m s).1.2
         = (Returns (PDict d), (set_headers m s).1.2, t2) →
       is_Some (d !! "error") →
       EvGet url params m 30
       ∈ (load_info w url params dflt resp_type (set_headers m s).1.2).2).
Proof.
  assert (Hset : ∀ h, set_headers h s = (Returns tt, State h (DNS_SETTINGS s), [])).
  { intros h. unfold set_headers. simpl. by rewrite dict_update_empty. }
  rewrite !Hset. cbn [fst snd]. split_and!.
  - done.
  - unfold set_dns_settings. simpl. case_bool_decide as Hm; simpl.
    + by rewrite Hm.
    + by rewrite dict_update_empty.
  - done.
  - intros ev Hev.
    destruct (load_info _ _ _ _ _ _) as [[o s'] t] eqn:Erun.
    apply load_info_events in Erun as [_ Ht].
    rewrite Forall_forall in Ht. specialize (Ht ev Hev).
    destruct ev; try done. simpl in Ht. tauto.
  - intros t1 port payload Hlog Hport Hsock Hconnect Hdumps.
    apply (service_calls_in_load_info _ _ _ _ _ _ t1); [done|].
    apply (payload_is_sent _ _ _ _ _ _ _ port); [done..|].
    by rewrite build_request_data_single.
  - intros t1 t2 d Hlog Hsvc Herr.
    destruct (load_info_fallback w url params dflt resp_type
                (State m (DNS_SETTINGS s)) t1 t2 d Hlog Hsvc Herr)
      as (warning & _ & ->).
    cbn [fst snd]. rewrite elem_of_app, list_elem_of_singleton. by right.
Qed.

(** After [set_headers({'X': '1'})], with a serializer that shows the
    headers and a service that reports an error: the payload sent shows
    [X: 1], and the direct request carries exactly that header. *)
Lemma setters_replace_witness :
  EvSendall MoreScenarios.payload_with_x
  ∈ (load_info MoreScenarios.showing_headers Scenarios.url PNone PNone "json"
               (set_headers {["X" := PStr "1"]} Scenarios.s0).1.2).2
  ∧ EvGet Scenarios.url PNone {["X" := PStr "1"]} 30
    ∈ (load_info MoreScenarios.showing_headers Scenarios.url PNone PNone
                 "json" (set_headers {["X" := PStr "1"]} Scenarios.s0).1.2).2.
Proof.
  destruct (setters_replace {["X" := PStr "1"]} Scenarios.s0
              MoreScenarios.showing_headers Scenarios.url PNone PNone "json")
    as (_ & _ & _ & _ & Hsend & Hget).
  split.
  - apply (Hsend [EvLog ("Calling URL " ++ dquote ++ Scenarios.url ++ dquote)
                        LOGDEBUG;
                  EvLog "{...}" LOGDEBUG] 45123).
    + vm_compute. reflexivity.
    + exists "45123". split_and!; [reflexivity | discriminate | reflexivity].
    + reflexivity.
    + reflexivity.
    + vm_compute. reflexivity.
  - apply (Hget [EvLog ("Calling URL " ++ dquote ++ Scenarios.url ++ dquote)
                       LOGDEBUG;
                 EvLog "{...}" LOGDEBUG]
                [EvGetProperty 10000 PORT_PROPERTY; EvSocket; EvSetTimeout 35;
                 EvConnect SERVICE_HOST 45123;
                 EvSendall MoreScenarios.payload_with_x;
                 EvRecv 4096; EvRecv 4096; EvClose]
                {["error" := PStr "x"]}).
    + vm_compute. reflexivity.
    + vm_compute. reflexivity.
    + by eexists.
Defined.
